(** * pymel 0.8.0: package start-up and the setVertexColor example

    A shallow embedding of the two Python sources of the repository,

    - [examples/setVertexColor.py]: the procedure [doIt], which colours the
      vertices of a mesh by the mean length of their connected edges;
    - [__init__.py]: the statements the package runs when it is imported;

    together with the properties the specification states about them.
    Python floats are IEEE 754 binary64 numbers and are modelled by Rocq's
    primitive floats, Python ints by [Z].  The host application (Maya) is
    an oracle: a record that says what each host call answers; every call is
    written to a trace when it is made. *)

From Stdlib Require Import ZArith Floats Ascii.
From stdpp Require Import base option list gmap strings.

Set Default Proof Using "Type".

(** ** The Python run time the two sources rely on *)

Module Py.

(** Exceptions.  [HostError] is what a failing call into the host raises
    (a [RuntimeError] carrying the host's message); [SystemError] marks a
    state the interpreter can never be in (a reference to no object). *)
Inductive exn : Type :=
| ZeroDivisionError
| AssertionError
| ImportError (module : string)
| NameError (name : string)
| TypeError
| ValueError
| HostError (msg : string)
| SystemError.

Inductive result (A : Type) : Type :=
| Ok (a : A)
| Raise (e : exn).
Global Arguments Ok {A} a.
Global Arguments Raise {A} e.

(** What a call into the host answers: a value, or a failure message. *)
Inductive answer (A : Type) : Type :=
| Returns (a : A)
| Fails (msg : string).
Global Arguments Returns {A} a.
Global Arguments Fails {A} msg.

Definition of_answer {A} (h : answer A) : result A :=
  match h with
  | Returns a => Ok a
  | Fails msg => Raise (HostError msg)
  end.

(** Numbers: an [int] or a [float]. *)
Inductive num : Type :=
| Int (z : Z)
| Float (f : float).

(** [float(z)]: the binary64 number nearest to [z] (ties to even).  Past
    the largest float this is infinite, where Python raises
    [OverflowError]; the sources convert the length of a list only. *)
Definition float_of_Z (z : Z) : float :=
  SF2Prim (binary_normalize prec emax z 0 false).

Definition to_float (x : num) : float :=
  match x with
  | Int z => float_of_Z z
  | Float f => f
  end.

(** [x + y]: integer addition on two ints, float addition after
    conversion otherwise. *)
Definition add (x y : num) : num :=
  match x, y with
  | Int a, Int b => Int (a + b)
  | _, _ => Float (to_float x + to_float y)
  end.

(** [x / y] in Python 2: floor division on two ints, float division
    otherwise; a zero divisor raises [ZeroDivisionError] in both. *)
Definition is_zero (y : num) : bool :=
  match y with
  | Int b => (b =? 0)%Z
  | Float g => (g =? 0)%float
  end.

Definition div (x y : num) : result num :=
  if is_zero y then Raise ZeroDivisionError
  else match x, y with
       | Int a, Int b => Ok (Int (a / b))
       | _, _ => Ok (Float (to_float x / to_float y))
       end.

(** The monad of a Python procedure over a state [St]: it returns a value
    or raises, and leaves a state behind in both cases. *)
Definition M (St A : Type) : Type := St → result A * St.

Definition ret {St A} (a : A) : M St A := λ s, (Ok a, s).

Definition bind {St A B} (m : M St A) (k : A → M St B) : M St B :=
  λ s, match m s with
       | (Ok a, s') => k a s'
       | (Raise e, s') => (Raise e, s')
       end.

Definition raise {St A} (e : exn) : M St A := λ s, (Raise e, s).

Definition lift {St A} (r : result A) : M St A := λ s, (r, s).

(** [for x in xs: body], the loop's variables threaded through as [acc]. *)
Fixpoint for_each {St A Acc} (xs : list A) (body : A → Acc → M St Acc)
    (acc : Acc) : M St Acc :=
  match xs with
  | [] => ret acc
  | x :: xs' => bind (body x acc) (for_each xs' body)
  end.

(** [enumerate(xs)] *)
Definition enumerate {A} (xs : list A) : list (nat * A) :=
  imap (λ i x, (i, x)) xs.

End Py.

Import Py.

Declare Scope py_scope.
Delimit Scope py_scope with py.
Notation "x <- m ; k" := (bind m (λ x, k))
  (at level 20, m at level 100, k at level 200, only parsing) : py_scope.
Notation "' p <- m ; k" := (bind m (λ p, k))
  (at level 20, p pattern, m at level 100, k at level 200, only parsing)
  : py_scope.
Notation "m ;; k" := (bind m (λ _, k))
  (at level 100, k at level 200, only parsing, right associativity)
  : py_scope.

(** ** examples/setVertexColor.py *)

Module SetVertexColor.

(** Modelled from the spec: the class [Color] of [pymel.core.datatypes] is
    not among the sources.  The specification speaks of a colour value
    with a red and a blue channel that the procedure builds for every
    vertex; a colour is four float channels, and reading the class
    constant [Color.black] builds a new [Color] from the constant's channel
    values, so that the object bound to [color] belongs to one iteration
    of the loop.  The channel values of black are a parameter of [doIt]. *)
Module Color.
Record t : Type := mk { r : float; g : float; b : float; a : float }.

Definition set_r (c : t) (v : float) : t :=
  {| r := v; g := g c; b := b c; a := a c |}.
Definition set_b (c : t) (v : float) : t :=
  {| r := r c; g := g c; b := v; a := a c |}.
End Color.

(** The host's answers for one edge and one vertex component.  A
    component carries its index in the mesh. *)
Record Edge : Type := {
  edge_index : nat;
  getLength : answer float
}.

Record Vertex : Type := {
  vtx_index : nat;
  connectedEdges : answer (list Edge);
  getColor : Z → answer Color.t
}.

(** The mesh shape handed to [doIt], and the command [polyColorPerVertex]
    applied to it with the flags [e] and [colorDisplayOption]. *)
Record Mesh : Type := {
  vtx : list Vertex;
  createColorSet : string → answer unit;
  setColors : list Color.t → answer unit;
  updateSurface : answer unit;
  polyColorPerVertex : Z → Z → answer unit
}.

(** Calls into the host and output, in the order they happen. *)
Inductive event : Type :=
| ECreateColorSet (name : string)
| EConnectedEdges (v : nat)
| EGetLength (e : nat)
| EGetColor (v : nat) (colorSet : Z)
| EPrint (n : Z)
| ESetColors (colors : list Color.t)
| EUpdateSurface
| EPolyColorPerVertex (e : Z) (colorDisplayOption : Z).

(** The [Color] objects alive ([store], addressed by position) and the
    trace so far. *)
Record state : Type := {
  store : list Color.t;
  trace : list event
}.

Definition empty : state := {| store := []; trace := [] |}.

Definition log (ev : event) (s : state) : state :=
  {| store := store s; trace := trace s ++ [ev] |}.

(** A call into the host: logged, then answered. *)
Definition host {A} (ev : event) (h : answer A) : M state A :=
  λ s, (of_answer h, log ev s).

Definition print (n : Z) : M state unit :=
  λ s, (Ok (), log (EPrint n) s).

(** Reading a class constant: a new object with the constant's value. *)
Definition new (c : Color.t) : M state nat :=
  λ s, (Ok (length (store s)),
        {| store := store s ++ [c]; trace := trace s |}).

Definition deref (ref : nat) : M state Color.t :=
  λ s, match store s !! ref with
       | Some c => (Ok c, s)
       | None => (Raise SystemError, s)
       end.

(** [ref.attr = v] for the setter [set] of the attribute. *)
Definition setattr (set : Color.t → float → Color.t) (ref : nat) (v : num)
    : M state unit :=
  λ s, match store s !! ref with
       | Some c =>
           (Ok (), {| store := <[ref := set c (to_float v)]> (store s);
                      trace := trace s |})
       | None => (Raise SystemError, s)
       end.

(** The objects of a list, read when the host receives the list. *)
Fixpoint deref_all (refs : list nat) : M state (list Color.t) :=
  match refs with
  | [] => ret []
  | ref :: refs' =>
      (c <- deref ref;
       cs <- deref_all refs';
       ret (c :: cs))%py
  end.

Section doIt.
(** The channel values of [Color.black]. *)
Variable black : Color.t.

(** Lines 17-23: the body of [for edg in edgs]. *)
Definition edge_body (edg : Edge) (acc : num * Z) : M state (num * Z) :=
  let '(totalLen, edgCnt) := acc in
  let edgCnt := (edgCnt + 1)%Z in
  (l <- host (EGetLength (edge_index edg)) (getLength edg);
   let totalLen := add totalLen (Float l) in
   ret (totalLen, edgCnt))%py.

(** Lines 14-33: the body of [for i, vtx in enumerate(obj.vtx)]. *)
Definition vertex_body (iv : nat * Vertex) (colors : list nat)
    : M state (list nat) :=
  let '(i, vtx) := iv in
  (edgs <- host (EConnectedEdges (vtx_index vtx)) (connectedEdges vtx);
   '(totalLen, edgCnt) <- for_each edgs edge_body (Int 0, 0%Z);
   avgLen <- lift (div totalLen (Int edgCnt));
   currColor <- host (EGetColor (vtx_index vtx) 0) (getColor vtx 0%Z);
   color <- new black;
   (if (Color.b currColor <=? 0)%float
    then setattr Color.set_b color avgLen
    else ret ());;
   setattr Color.set_r color avgLen;;
   ret (colors ++ [color]))%py.

(** Lines 10-33: [colors = []] and the loop over the vertices. *)
Definition vertex_loop (obj : Mesh) : M state (list nat) :=
  for_each (enumerate (vtx obj)) vertex_body [].

(** Lines 8-40. *)
Definition doIt (obj : Mesh) : M state unit :=
  (host (ECreateColorSet "edgeLength") (createColorSet obj "edgeLength");;
   colors <- vertex_loop obj;
   print (Z.of_nat (length colors));;
   cs <- deref_all colors;
   host (ESetColors cs) (setColors obj cs);;
   host EUpdateSurface (updateSurface obj);;
   host (EPolyColorPerVertex 1 1) (polyColorPerVertex obj 1%Z 1%Z))%py.
End doIt.

(** *** Vocabulary of the specification *)

(** The arithmetic mean of the lengths: their sum, taken in the order of
    the list from zero, divided by their number. *)
Definition mean (ls : list float) : float :=
  (fold_left PrimFloat.add ls (float_of_Z 0)
   / float_of_Z (Z.of_nat (length ls)))%float.

(** The colour the specification describes for a vertex whose connected
    edges have the lengths [ls] and whose colour was [prior]. *)
Definition vertex_color (black : Color.t) (ls : list float)
    (prior : Color.t) : Color.t :=
  let c := if (Color.b prior <=? 0)%float
           then Color.set_b black (mean ls) else black in
  Color.set_r c (mean ls).

(** What the host answers for a vertex the loop body gets through: its
    connected edges [es], at least one, their lengths [ls] and its colour
    [prior]. *)
Record answers (v : Vertex) (es : list Edge) (ls : list float)
    (prior : Color.t) : Prop := {
  answers_edges : connectedEdges v = Returns es;
  answers_lengths : Forall2 (λ e l, getLength e = Returns l) es ls;
  answers_nonempty : es ≠ [];
  answers_color : getColor v 0%Z = Returns prior
}.

(** The colour one run of the loop body builds for [v]: the object it
    appends to [colors], if it gets that far. *)
Definition computed_color (black : Color.t) (v : Vertex) : option Color.t :=
  match vertex_body black (0, v) [] empty with
  | (Ok colors, s) => ref ← last colors; store s !! ref
  | (Raise _, _) => None
  end.

(** The host queries of one vertex when each of them is answered. *)
Definition vertex_queries (v : Vertex) : list event :=
  EConnectedEdges (vtx_index v) ::
  match connectedEdges v with
  | Returns es =>
      map (λ e, EGetLength (edge_index e)) es ++ [EGetColor (vtx_index v) 0]
  | Fails _ => []
  end.

Definition is_query (ev : event) : bool :=
  match ev with
  | EConnectedEdges _ | EGetLength _ | EGetColor _ _ => true
  | _ => false
  end.

Definition is_write_back (ev : event) : bool :=
  match ev with
  | ESetColors _ | EUpdateSurface | EPolyColorPerVertex _ _ => true
  | _ => false
  end.

(** The calls that change the mesh. *)
Definition is_mutation (ev : event) : bool :=
  match ev with
  | ECreateColorSet _ => true
  | _ => is_write_back ev
  end.

(** From [s] to [s'] nothing but host queries went to the trace. *)
Definition queries_only (s s' : state) : Prop :=
  ∃ qs, trace s' = trace s ++ qs ∧ Forall (λ ev, is_query ev = true) qs.

(** An action that does nothing to the trace but add host queries. *)
Definition querying {A} (m : M state A) : Prop :=
  ∀ s r s', m s = (r, s') → queries_only s s'.

(** The trace of a call of [doIt] that returns, when [cs] are the colours
    the loop built. *)
Definition doIt_trace (obj : Mesh) (cs : list Color.t) : list event :=
  ECreateColorSet "edgeLength" ::
  concat (map vertex_queries (vtx obj)) ++
  [EPrint (Z.of_nat (length (vtx obj))); ESetColors cs; EUpdateSurface;
   EPolyColorPerVertex 1 1].

(** The colour lists handed to [setColors], one per call. *)
Definition set_colors_calls (t : list event) : list (list Color.t) :=
  omap (λ ev, match ev with ESetColors cs => Some cs | _ => None end) t.

End SetVertexColor.

(** ** __init__.py: the statements run when the package is imported *)

Module PymelInit.

(** The objects the module's statements handle. *)
Inductive value : Type :=
| VNone
| VBool (b : bool)
| VInt (z : Z)
| VStr (s : string)
| VModule (name : string)
| VAttr (obj : value) (name : string)
| VFunction (name : string).

(** Truth value of an object, as [assert] tests it. *)
Definition truthy (v : value) : bool :=
  match v with
  | VNone => false
  | VBool b => b
  | VInt z => negb (z =? 0)%Z
  | VStr s => negb (String.eqb s "")
  | VModule _ | VAttr _ _ | VFunction _ => true
  end.

(** The code outside this file: what an import statement of the package
    does for the module it names (the import returns, or it raises: the
    exception is the importer's or the one the module's code raises), the
    names [from m import *] binds, what a call answers, and what
    [__import__] does for a module name that is not empty. *)
Record Host : Type := {
  import : string → result unit;
  star : string → gmap string value;
  call : value → list value → list (string * value) → answer value;
  load : string → result unit
}.

Inductive event : Type :=
| EImport (module : string)
| EImportStar (module : string)
| EPrint (s : string)
| ECall (f : value) (args : list value) (kwargs : list (string * value))
| EBuiltinImport (name : value).

(** The module's namespace and the trace so far. *)
Record state : Type := {
  globals : gmap string value;
  trace : list event
}.

(** The namespace of a module called [name] when its code starts. *)
Definition fresh (name : string) : state :=
  {| globals := {[ "__name__" := VStr name ]}; trace := [] |}.

Definition log (ev : event) (s : state) : state :=
  {| globals := globals s; trace := trace s ++ [ev] |}.

Definition assign (x : string) (v : value) : M state unit :=
  λ s, (Ok (), {| globals := <[x := v]> (globals s); trace := trace s |}).

Definition lookup (x : string) : M state value :=
  λ s, match globals s !! x with
       | Some v => (Ok v, s)
       | None => (Raise (NameError x), s)
       end.

Definition print (msg : string) : M state unit :=
  λ s, (Ok (), log (EPrint msg) s).

(** The name up to the first dot. *)
Fixpoint top_level (name : string) : string :=
  match name with
  | EmptyString => EmptyString
  | String c rest =>
      if Ascii.eqb c "."%char then EmptyString else String c (top_level rest)
  end.

Definition is_main (name : value) : bool :=
  match name with
  | VStr n => String.eqb n "__main__"
  | _ => false
  end.

Section init.
Variable host : Host.

(** Importing [m], logged as [ev]: the import returns, or it raises what
    the host says: the importer's exception, or the one the code of the
    module raised. *)
Definition import_as (ev : event) (m : string) : M state unit :=
  λ s, (import host m, log ev s).

(** [import m] and [from m import x], before the name is bound. *)
Definition import_module (m : string) : M state unit :=
  import_as (EImport m) m.

Definition bind_all (names : gmap string value) : M state unit :=
  λ s, (Ok (), {| globals := names ∪ globals s; trace := trace s |}).

(** [from m import *]: the names of [m] are bound over those present. *)
Definition import_star (m : string) : M state unit :=
  (import_as (EImportStar m) m;;
   bind_all (star host m))%py.

(** [__import__(name)], the builtin called with a name only: a name that
    is no string raises [TypeError], the empty name [ValueError]; else the
    module is imported by its absolute name, which may raise, and the call
    returns the module of the top-level package of [name]. *)
Definition builtin_import (name : value) : M state value :=
  λ s, (match name with
        | VStr n =>
            if String.eqb n "" then Raise ValueError
            else match load host n with
                 | Ok _ => Ok (VModule (top_level n))
                 | Raise e => Raise e
                 end
        | _ => Raise TypeError
        end, log (EBuiltinImport name) s).

Definition call_value (f : value) (args : list value)
    (kwargs : list (string * value)) : M state value :=
  λ s, (of_answer (call host f args kwargs), log (ECall f args kwargs) s).

(** Lines 1026-1028: [def _test()], called as [_test()]. *)
Definition _test : M state value :=
  (import_module "doctest";;
   call_value (VAttr (VModule "doctest") "testmod") []
     [("verbose", VBool true)];;
   ret VNone)%py.

(** Lines 985-1030, the statements after the docstring.  [assert] is the
    statement of an interpreter run without [-O]: it evaluates its
    argument and raises [AssertionError] on a false value.  The name
    [_test] is bound by the statement before its only use. *)
Definition init : M state unit :=
  (assign "__version__" (VStr "0.8.0");;
   import_module "mayahook";;
   assign "_mayaInit" (VAttr (VModule "mayahook") "mayaInit");;
   print "imported mayahook";;
   f <- lookup "_mayaInit";
   ok <- call_value f [] [];
   (if truthy ok then ret () else raise AssertionError);;
   import_module "core.pmtypes.factories";;
   assign "factories" (VModule "core.pmtypes.factories");;
   import_module "api";;
   assign "api" (VModule "api");;
   print "imported api";;
   import_star "core";;
   print "imported core";;
   import_module "util.test";;
   assign "pymel_test" (VAttr (VModule "util.test") "pymel_test");;
   name <- lookup "__name__";
   m <- builtin_import name;
   assign "_module" m;;
   factories <- lookup "factories";
   m <- lookup "_module";
   call_value (VAttr factories "installCallbacks") [m] [];;
   import_module "maya.cmds";;
   assign "cmds" (VModule "maya.cmds");;
   assign "_test" (VFunction "_test");;
   name <- lookup "__name__";
   if is_main name then _test;; ret () else ret ())%py.
End init.

(** *** Vocabulary of the specification *)

(** The namespace when [from core import *] is reached. *)
Definition before_star (name : string) : gmap string value :=
  <["api" := VModule "api"]>
    (<["factories" := VModule "core.pmtypes.factories"]>
       (<["_mayaInit" := VAttr (VModule "mayahook") "mayaInit"]>
          (<["__version__" := VStr "0.8.0"]> {[ "__name__" := VStr name ]}))).

(** The trace of the statements up to [import maya.cmds], when
    [factories] is bound to [factories] and [__name__] to the string
    [name]. *)
Definition init_trace (factories : value) (name : string) : list event :=
  [EImport "mayahook"; EPrint "imported mayahook";
   ECall (VAttr (VModule "mayahook") "mayaInit") [] [];
   EImport "core.pmtypes.factories";
   EImport "api"; EPrint "imported api";
   EImportStar "core"; EPrint "imported core";
   EImport "util.test";
   EBuiltinImport (VStr name);
   ECall (VAttr factories "installCallbacks")
     [VModule (top_level name)] [];
   EImport "maya.cmds"].

(** The start-up steps the specification names, and the event that is
    each of them: the call of [mayaInit], the import of the factory, the
    import of [api], the re-export of [core], and the call of
    [installCallbacks] with the module it is given. *)
Inductive step : Type :=
| Bootstrap
| LoadFactory
| LoadIdentityLayer
| ReexportCore
| RegisterCallbacks (module : value).

Definition step_of (ev : event) : option step :=
  match ev with
  | EImport m =>
      if String.eqb m "core.pmtypes.factories" then Some LoadFactory
      else if String.eqb m "api" then Some LoadIdentityLayer
      else None
  | EImportStar m => if String.eqb m "core" then Some ReexportCore else None
  | ECall (VAttr _ name) args [] =>
      if String.eqb name "mayaInit" then Some Bootstrap
      else if String.eqb name "installCallbacks" then
        match args with
        | [m] => Some (RegisterCallbacks m)
        | _ => None
        end
      else None
  | _ => None
  end.

(** The trace of [_test()]. *)
Definition test_trace : list event :=
  [EImport "doctest";
   ECall (VAttr (VModule "doctest") "testmod") [] [("verbose", VBool true)]].

(** The names the package binds after [from core import *]. *)
Definition package_names : list string :=
  ["pymel_test"; "_module"; "cmds"; "_test"].

End PymelInit.

(** ** Concrete scenes, used to run the model *)

Module Scenario.
Import SetVertexColor.

(** [Color.black]: no red, green or blue, opaque. *)
Definition black : Color.t := Color.mk 0 0 0 1.

Definition edge (i : nat) (l : float) : Edge :=
  {| edge_index := i; getLength := Returns l |}.

(** A vertex whose connected edges have the lengths [ls] and whose colour
    is [prior]. *)
Definition vertex (i : nat) (ls : list float) (prior : Color.t) : Vertex :=
  {| vtx_index := i;
     connectedEdges := Returns (imap edge ls);
     getColor := λ _, Returns prior |}.

(** A mesh on which every host call returns. *)
Definition mesh (vs : list Vertex) : Mesh :=
  {| vtx := vs;
     createColorSet := λ _, Returns ();
     setColors := λ _, Returns ();
     updateSurface := Returns ();
     polyColorPerVertex := λ _ _, Returns () |}.

(** The scenario of the specification: edges of lengths 2, 4 and 6, and a
    prior colour whose blue channel is 0.0, or 0.5. *)
Definition no_blue : Color.t := Color.mk 0.25 0.75 0 1.
Definition half_blue : Color.t := Color.mk 0.25 0.75 0.5 1.
Definition lengths : list float := [2; 4; 6]%float.

Definition v_no_blue : Vertex := vertex 0 lengths no_blue.
Definition v_half_blue : Vertex := vertex 1 lengths half_blue.
Definition v_isolated : Vertex := vertex 2 [] no_blue.

Definition two_vertices : Mesh := mesh [v_no_blue; v_half_blue].
Definition with_isolated : Mesh := mesh [v_no_blue; v_isolated; v_half_blue].

(** A host on which every import and call succeeds, [mayaInit] answers
    [ok], and [core] exports a command and its own [cmds]. *)
Definition host (ok : PymelInit.value) : PymelInit.Host :=
  {| PymelInit.import := λ _, Ok ();
     PymelInit.star := λ _,
       {[ "ls" := PymelInit.VAttr (PymelInit.VModule "core") "ls";
          "cmds" := PymelInit.VModule "pymel.mayahook.pmcmds" ]};
     PymelInit.call := λ f _ _,
       match f with
       | PymelInit.VAttr (PymelInit.VModule "mayahook") "mayaInit" =>
           Returns ok
       | _ => Returns PymelInit.VNone
       end;
     PymelInit.load := λ _, Ok () |}.

(** Meshes on which the host refuses the colours, or the update of the
    surface. *)
Definition mesh_refusing_colors (vs : list Vertex) : Mesh :=
  {| vtx := vs;
     createColorSet := λ _, Returns ();
     setColors := λ _, Fails "setColors failed";
     updateSurface := Returns ();
     polyColorPerVertex := λ _ _, Returns () |}.

Definition mesh_refusing_update (vs : list Vertex) : Mesh :=
  {| vtx := vs;
     createColorSet := λ _, Returns ();
     setColors := λ _, Returns ();
     updateSurface := Fails "updateSurface failed";
     polyColorPerVertex := λ _ _, Returns () |}.

(** A mesh on which the colour set cannot be created. *)
Definition mesh_refusing_color_set (vs : list Vertex) : Mesh :=
  {| vtx := vs;
     createColorSet := λ _, Fails "createColorSet failed";
     setColors := λ _, Returns ();
     updateSurface := Returns ();
     polyColorPerVertex := λ _ _, Returns () |}.

(** The host [host (VBool true)], on which the module [m] is missing. *)
Definition host_without (m : string) : PymelInit.Host :=
  {| PymelInit.import := λ m',
       if String.eqb m' m then Raise (ImportError m) else Ok ();
     PymelInit.star := PymelInit.star (host (PymelInit.VBool true));
     PymelInit.call := PymelInit.call (host (PymelInit.VBool true));
     PymelInit.load := λ m',
       if String.eqb m' m then Raise (ImportError m) else Ok () |}.

(** The host [host (VBool true)], with a [core] that exports the string
    [n] as [__name__]. *)
Definition host_renaming (n : string) : PymelInit.Host :=
  {| PymelInit.import := λ _, Ok ();
     PymelInit.star := λ _, {[ "__name__" := PymelInit.VStr n ]};
     PymelInit.call := PymelInit.call (host (PymelInit.VBool true));
     PymelInit.load := λ m,
       if String.eqb m "no_such_pkg" then Raise (ImportError m) else Ok ()
  |}.
End Scenario.

(** * Properties *)

(** ** Stepping through the monad *)

Section monad_facts.
Context {St A B : Type}.
Implicit Types (m : M St A) (k : A → M St B) (s : St).

Lemma bind_Ok m k s a s1 : m s = (Ok a, s1) → bind m k s = k a s1.
Proof. unfold bind. by intros ->. Qed.

Lemma bind_Raise m k s e s1 :
  m s = (Raise e, s1) → bind m k s = (Raise e, s1).
Proof. unfold bind. by intros ->. Qed.

Lemma bind_Ok_inv m k s b s2 :
  bind m k s = (Ok b, s2) →
  ∃ a s1, m s = (Ok a, s1) ∧ k a s1 = (Ok b, s2).
Proof.
  unfold bind. destruct (m s) as [[a|e] s1]; [eauto | discriminate].
Qed.

Lemma bind_Raise_inv m k s e s2 :
  bind m k s = (Raise e, s2) →
  m s = (Raise e, s2) ∨ ∃ a s1, m s = (Ok a, s1) ∧ k a s1 = (Raise e, s2).
Proof.
  unfold bind. destruct (m s) as [[a|e'] s1]; [eauto | left; congruence].
Qed.
End monad_facts.

(** ** Numbers *)

Lemma add_Float_sum (ls : list float) (f : float) :
  fold_left (λ acc l, add acc (Float l)) ls (Float f)
  = Float (fold_left PrimFloat.add ls f).
Proof.
  revert f. induction ls as [|l ls IH]; intros f; simpl; [done | apply IH].
Qed.

(** After the first addition the running total is a float: the int [0] the
    total starts from is converted once. *)
Lemma total_of_lengths (ls : list float) :
  ls ≠ [] →
  fold_left (λ acc l, add acc (Float l)) ls (Int 0)
  = Float (fold_left PrimFloat.add ls (float_of_Z 0)).
Proof.
  destruct ls as [|l ls]; [done | intros _; simpl; apply add_Float_sum].
Qed.

Lemma div_by_count (f : float) (n : Z) :
  (0 < n)%Z → div (Float f) (Int n) = Ok (Float (f / float_of_Z n)).
Proof.
  intros Hn. unfold div; simpl.
  destruct (Z.eqb_spec n 0) as [->|_]; [lia | done].
Qed.

(** A positive blue value is not [<= 0.0]. *)
Lemma positive_not_leb_zero (x : float) :
  (0 <? x)%float = true → (x <=? 0)%float = false.
Proof.
  rewrite ltb_spec, leb_spec. unfold SFltb, SFleb.
  change (Prim2SF 0) with (S754_zero false).
  destruct (Prim2SF x) as [sg|sg| |sg m e]; simpl; try destruct sg;
    simpl; congruence.
Qed.

(** ** The example procedure [doIt] *)

Section doIt_facts.
Import SetVertexColor.
Variable black : Color.t.

Lemma edge_body_run e totalLen edgCnt s :
  edge_body e (totalLen, edgCnt) s
  = (match getLength e with
     | Returns l => Ok (add totalLen (Float l), (edgCnt + 1)%Z)
     | Fails msg => Raise (HostError msg)
     end, log (EGetLength (edge_index e)) s).
Proof. unfold edge_body, bind, host. by destruct (getLength e). Qed.

Lemma edge_loop_Ok es ls totalLen edgCnt st tr :
  Forall2 (λ e l, getLength e = Returns l) es ls →
  for_each es edge_body (totalLen, edgCnt) {| store := st; trace := tr |}
  = (Ok (fold_left (λ acc l, add acc (Float l)) ls totalLen,
         (edgCnt + Z.of_nat (length es))%Z),
     {| store := st;
        trace := tr ++ map (λ e, EGetLength (edge_index e)) es |}).
Proof.
  intros Hls. revert totalLen edgCnt tr.
  induction Hls as [|e l es ls He _ IH]; intros totalLen edgCnt tr.
  - simpl. by rewrite Z.add_0_r, app_nil_r.
  - cbn [for_each].
    erewrite bind_Ok by (rewrite edge_body_run, He; reflexivity).
    unfold log; cbn [store trace]. rewrite IH. cbn [length map fold_left].
    rewrite <- app_assoc. do 3 f_equal. lia.
Qed.

Lemma edge_loop_Ok_inv es acc acc' s s' :
  for_each es edge_body acc s = (Ok acc', s') →
  ∃ ls, Forall2 (λ e l, getLength e = Returns l) es ls.
Proof.
  revert acc s. induction es as [|e es IH]; intros [totalLen edgCnt] s Hrun.
  - by exists [].
  - cbn [for_each] in Hrun.
    apply bind_Ok_inv in Hrun as (acc1 & s1 & Hbody & Hrest).
    rewrite edge_body_run in Hbody.
    destruct (getLength e) as [l|msg] eqn:He; [|discriminate].
    destruct (IH _ _ Hrest) as [ls Hls]. exists (l :: ls). by constructor.
Qed.

Lemma queries_only_refl s : queries_only s s.
Proof. exists []. by rewrite app_nil_r. Qed.

Lemma queries_only_trans s1 s2 s3 :
  queries_only s1 s2 → queries_only s2 s3 → queries_only s1 s3.
Proof.
  intros (q1 & E1 & F1) (q2 & E2 & F2). exists (q1 ++ q2).
  rewrite E2, E1, app_assoc. split; [done | by apply Forall_app].
Qed.

Lemma queries_only_log ev s : is_query ev = true → queries_only s (log ev s).
Proof. intros Hq. exists [ev]. split; [done | by constructor]. Qed.

(** The loop body, step by step. *)
Lemma new_run c st tr :
  new c {| store := st; trace := tr |}
  = (Ok (length st), {| store := st ++ [c]; trace := tr |}).
Proof. done. Qed.

Lemma setattr_last set c v st tr :
  setattr set (length st) v {| store := st ++ [c]; trace := tr |}
  = (Ok (), {| store := st ++ [set c (to_float v)]; trace := tr |}).
Proof.
  unfold setattr; cbn [store trace].
  rewrite list_lookup_middle by done.
  by rewrite (insert_app_r_alt st [c]), Nat.sub_diag by done.
Qed.

Lemma vertex_body_Ok i v es ls prior colors st tr :
  answers v es ls prior →
  vertex_body black (i, v) colors {| store := st; trace := tr |}
  = (Ok (colors ++ [length st]),
     {| store := st ++ [vertex_color black ls prior];
        trace := tr ++ vertex_queries v |}).
Proof.
  intros [Hes Hls Hne Hprior]. unfold vertex_body, vertex_queries.
  rewrite Hes.
  erewrite bind_Ok by reflexivity.
  unfold log; cbn [store trace].
  erewrite bind_Ok by (by apply edge_loop_Ok).
  assert (length es = length ls) as Hlen by by eapply Forall2_length.
  assert (ls ≠ []) as Hne' by (by destruct ls, es).
  rewrite total_of_lengths, Z.add_0_l by done.
  erewrite bind_Ok
    by (unfold lift; rewrite div_by_count by (destruct es; [done|simpl; lia]);
        reflexivity).
  erewrite bind_Ok by (unfold host; rewrite Hprior; reflexivity).
  unfold log; cbn [store trace].
  erewrite bind_Ok by apply new_run.
  unfold vertex_color, mean. rewrite <- Hlen.
  destruct (Color.b prior <=? 0)%float.
  - erewrite bind_Ok by apply setattr_last.
    erewrite bind_Ok by apply setattr_last.
    unfold ret. cbn [to_float]. by rewrite <- !app_assoc.
  - erewrite bind_Ok by reflexivity.
    erewrite bind_Ok by apply setattr_last.
    unfold ret. cbn [to_float]. by rewrite <- !app_assoc.
Qed.

Lemma vertex_body_Ok_inv i v colors colors' s s' :
  vertex_body black (i, v) colors s = (Ok colors', s') →
  ∃ es ls prior, answers v es ls prior.
Proof.
  unfold vertex_body. intros Hrun.
  apply bind_Ok_inv in Hrun as (es & s1 & Hes & Hrun).
  apply bind_Ok_inv in Hrun as ([totalLen edgCnt] & s2 & Hloop & Hrun).
  apply bind_Ok_inv in Hrun as (avgLen & s3 & Hdiv & Hrun).
  apply bind_Ok_inv in Hrun as (prior & s4 & Hprior & _).
  unfold host in Hes, Hprior.
  destruct (connectedEdges v) as [es'|] eqn:Hes'; [|discriminate].
  destruct (getColor v 0%Z) as [prior'|] eqn:Hprior'; [|discriminate].
  simpl in Hes, Hprior. simplify_eq.
  destruct (edge_loop_Ok_inv _ _ _ _ _ Hloop) as [ls Hls].
  exists es, ls, prior. split; [done..| |done].
  intros ->. by inversion Hloop; subst.
Qed.

(** The colour computed for a vertex, from the host's answers. *)
Lemma computed_color_answers v es ls prior :
  answers v es ls prior →
  computed_color black v = Some (vertex_color black ls prior).
Proof.
  intros Hv. unfold computed_color, empty.
  rewrite (vertex_body_Ok _ _ _ _ _ _ _ _ Hv). by cbn.
Qed.

Lemma computed_color_Some_inv v c :
  computed_color black v = Some c →
  ∃ es ls prior, answers v es ls prior ∧ c = vertex_color black ls prior.
Proof.
  intros Hc. pose proof Hc as Hc'. unfold computed_color in Hc'.
  destruct (vertex_body black (0, v) [] empty) as [[colors|e] s] eqn:Hrun;
    [|discriminate].
  destruct (vertex_body_Ok_inv _ _ _ _ _ _ Hrun) as (es & ls & prior & Hv).
  exists es, ls, prior. split; [done|].
  rewrite (computed_color_answers _ _ _ _ Hv) in Hc. congruence.
Qed.

Lemma vertex_body_of_computed i v c colors st tr :
  computed_color black v = Some c →
  vertex_body black (i, v) colors {| store := st; trace := tr |}
  = (Ok (colors ++ [length st]),
     {| store := st ++ [c]; trace := tr ++ vertex_queries v |}).
Proof.
  intros (es & ls & prior & Hv & ->)%computed_color_Some_inv.
  by eapply vertex_body_Ok.
Qed.

Lemma vertex_body_computed i v colors colors' st tr s' :
  vertex_body black (i, v) colors {| store := st; trace := tr |}
  = (Ok colors', s') →
  ∃ c, computed_color black v = Some c ∧ colors' = colors ++ [length st]
       ∧ s' = {| store := st ++ [c]; trace := tr ++ vertex_queries v |}.
Proof.
  intros Hrun.
  destruct (vertex_body_Ok_inv _ _ _ _ _ _ Hrun) as (es & ls & prior & Hv).
  exists (vertex_color black ls prior).
  rewrite (vertex_body_Ok _ _ _ _ _ _ _ _ Hv) in Hrun.
  split; [by eapply computed_color_answers | by simplify_eq].
Qed.

(** The loop over the vertices. *)
Lemma vertex_loop_Ok ivs cs colors st tr :
  Forall2 (λ iv c, computed_color black iv.2 = Some c) ivs cs →
  for_each ivs (vertex_body black) colors {| store := st; trace := tr |}
  = (Ok (colors ++ seq (length st) (length ivs)),
     {| store := st ++ cs;
        trace := tr ++ concat (map vertex_queries ivs.*2) |}).
Proof.
  intros Hcs. revert colors st tr.
  induction Hcs as [|[i v] c ivs cs Hc _ IH]; intros colors st tr.
  - simpl. by rewrite !app_nil_r.
  - cbn [for_each]. erewrite bind_Ok by (by apply vertex_body_of_computed).
    rewrite IH. rewrite length_app. cbn [length fmap list_fmap map concat seq].
    rewrite Nat.add_1_r, <- !app_assoc. done.
Qed.

Lemma vertex_loop_Ok_inv ivs colors colors' st tr s' :
  for_each ivs (vertex_body black) colors {| store := st; trace := tr |}
  = (Ok colors', s') →
  ∃ cs, Forall2 (λ iv c, computed_color black iv.2 = Some c) ivs cs.
Proof.
  revert colors st tr.
  induction ivs as [|[i v] ivs IH]; intros colors st tr Hrun.
  - by exists [].
  - cbn [for_each] in Hrun.
    apply bind_Ok_inv in Hrun as (colors1 & s1 & Hbody & Hrest).
    apply vertex_body_computed in Hbody as (c & Hc & -> & ->).
    destruct (IH _ _ _ Hrest) as [cs Hcs].
    exists (c :: cs). by constructor.
Qed.

Lemma enumerate_snd {A} (xs : list A) : (enumerate xs).*2 = xs.
Proof.
  unfold enumerate.
  enough (∀ f : nat → nat, (imap (λ i x, (f i, x)) xs).*2 = xs) as H
    by apply (H id).
  induction xs as [|x xs IH]; intros f; [done|].
  cbn. f_equal. apply (IH (f ∘ S)).
Qed.

Lemma enumerate_length {A} (xs : list A) : length (enumerate xs) = length xs.
Proof. by rewrite <- (enumerate_snd xs) at 2; rewrite length_fmap. Qed.

(** Reading back the objects made by the loop. *)
Lemma deref_all_new st cs tr :
  deref_all (seq (length st) (length cs)) {| store := st ++ cs; trace := tr |}
  = (Ok cs, {| store := st ++ cs; trace := tr |}).
Proof.
  revert st. induction cs as [|c cs IH]; intros st; [done|].
  cbn [length seq deref_all].
  erewrite bind_Ok
    by (unfold deref; cbn [store]; rewrite list_lookup_middle by done;
        reflexivity).
  specialize (IH (st ++ [c])). rewrite length_app, Nat.add_1_r in IH.
  rewrite <- app_assoc in IH. cbn [app] in IH.
  by erewrite bind_Ok by apply IH.
Qed.

(** *** The whole procedure *)

Lemma host_Returns {A} ev (h : answer A) a s :
  h = Returns a → host ev h s = (Ok a, log ev s).
Proof. by intros ->. Qed.

Lemma host_Ok_inv {A} ev (h : answer A) a s s' :
  host ev h s = (Ok a, s') → h = Returns a ∧ s' = log ev s.
Proof. unfold host. destruct h; simpl; intros; by simplify_eq. Qed.

Lemma doIt_Ok obj cs st tr :
  createColorSet obj "edgeLength" = Returns () →
  Forall2 (λ v c, computed_color black v = Some c) (vtx obj) cs →
  setColors obj cs = Returns () →
  updateSurface obj = Returns () →
  polyColorPerVertex obj 1%Z 1%Z = Returns () →
  doIt black obj {| store := st; trace := tr |}
  = (Ok (), {| store := st ++ cs; trace := tr ++ doIt_trace obj cs |}).
Proof.
  intros Hcreate Hcs Hset Hupd Hpoly. unfold doIt, vertex_loop.
  erewrite bind_Ok by (by apply host_Returns).
  unfold log; cbn [store trace].
  erewrite bind_Ok
    by (apply vertex_loop_Ok with (cs := cs);
        by rewrite <- (enumerate_snd (vtx obj)), Forall2_fmap_l in Hcs).
  rewrite enumerate_snd, enumerate_length, app_nil_l.
  rewrite length_seq.
  erewrite bind_Ok by reflexivity. unfold log; cbn [store trace].
  rewrite (Forall2_length _ _ _ Hcs).
  erewrite bind_Ok by apply deref_all_new.
  erewrite bind_Ok by (by apply host_Returns).
  erewrite bind_Ok by (by apply host_Returns).
  erewrite host_Returns by done.
  unfold log, doIt_trace; cbn [store trace].
  rewrite (Forall2_length _ _ _ Hcs).
  by rewrite <- !app_assoc.
Qed.

Lemma doIt_Ok_inv obj st tr s' :
  doIt black obj {| store := st; trace := tr |} = (Ok (), s') →
  ∃ cs,
    Forall2 (λ v c, computed_color black v = Some c) (vtx obj) cs
    ∧ s' = {| store := st ++ cs; trace := tr ++ doIt_trace obj cs |}
    ∧ createColorSet obj "edgeLength" = Returns ()
    ∧ setColors obj cs = Returns ()
    ∧ updateSurface obj = Returns ()
    ∧ polyColorPerVertex obj 1%Z 1%Z = Returns ().
Proof.
  intros Hrun. pose proof Hrun as Hrun'. unfold doIt, vertex_loop in Hrun'.
  apply bind_Ok_inv in Hrun' as ([] & s1 & [Hcreate ->]%host_Ok_inv & Hrun').
  apply bind_Ok_inv in Hrun' as (colors & s2 & Hloop & Hrun').
  unfold log in Hloop; cbn [store trace] in Hloop.
  pose proof Hloop as [cs Hcs]%vertex_loop_Ok_inv.
  rewrite (vertex_loop_Ok _ _ _ _ _ Hcs) in Hloop.
  rewrite app_nil_l in Hloop. injection Hloop as <- <-.
  apply bind_Ok_inv in Hrun' as ([] & s3 & Hprint & Hrun').
  injection Hprint as <-. unfold log in Hrun'; cbn [store trace] in Hrun'.
  rewrite (Forall2_length _ _ _ Hcs) in Hrun'.
  erewrite bind_Ok in Hrun' by apply deref_all_new.
  apply bind_Ok_inv in Hrun' as ([] & s4 & [Hset ->]%host_Ok_inv & Hrun').
  apply bind_Ok_inv in Hrun' as ([] & s5 & [Hupd ->]%host_Ok_inv & Hrun').
  apply host_Ok_inv in Hrun' as [Hpoly _].
  apply (Forall2_fmap_l snd (λ v c, computed_color black v = Some c))
    in Hcs.
  rewrite enumerate_snd in Hcs.
  exists cs. split_and!; try done.
  rewrite (doIt_Ok _ _ _ _ Hcreate Hcs Hset Hupd Hpoly) in Hrun.
  by injection Hrun.
Qed.

(** *** What the loop leaves in the trace, whatever its outcome *)

Lemma querying_bind {A B} (m : M state A) (k : A → M state B) :
  querying m → (∀ a, querying (k a)) → querying (bind m k).
Proof.
  intros Hm Hk s r s' Hrun. unfold bind in Hrun.
  destruct (m s) as [[a|e] s1] eqn:Hms.
  - eapply queries_only_trans; [by eapply Hm | by eapply Hk].
  - injection Hrun as _ <-. by eapply Hm.
Qed.

Lemma querying_silent {A} (m : M state A) :
  (∀ s, trace (m s).2 = trace s) → querying m.
Proof.
  intros Hm s r s' Hrun. exists []. specialize (Hm s).
  rewrite Hrun in Hm. by rewrite app_nil_r.
Qed.

Lemma querying_host {A} ev (h : answer A) :
  is_query ev = true → querying (host ev h).
Proof. intros Hq s r s' [= _ <-]. by apply queries_only_log. Qed.

Lemma querying_for_each {A Acc} (xs : list A) (body : A → Acc → M state Acc)
    (acc : Acc) :
  (∀ x acc', querying (body x acc')) → querying (for_each xs body acc).
Proof.
  intros Hbody. revert acc. induction xs as [|x xs IH]; intros acc.
  - by apply querying_silent.
  - cbn [for_each]. by apply querying_bind.
Qed.

Lemma querying_setattr set ref v : querying (setattr set ref v).
Proof.
  apply querying_silent. intros s. unfold setattr.
  by destruct (store s !! ref).
Qed.

Lemma querying_edge_body e acc : querying (edge_body e acc).
Proof.
  destruct acc as [totalLen edgCnt]. unfold edge_body.
  apply querying_bind; [by apply querying_host|].
  intros l. by apply querying_silent.
Qed.

Lemma querying_vertex_body iv colors : querying (vertex_body black iv colors).
Proof.
  destruct iv as [i v]. unfold vertex_body.
  apply querying_bind; [by apply querying_host|]; intros es.
  apply querying_bind; [apply querying_for_each, querying_edge_body|].
  intros [totalLen edgCnt].
  apply querying_bind; [by apply querying_silent|]; intros avgLen.
  apply querying_bind; [by apply querying_host|]; intros currColor.
  apply querying_bind; [by apply querying_silent|]; intros color.
  apply querying_bind.
  { destruct (Color.b currColor <=? 0)%float;
      [apply querying_setattr | by apply querying_silent]. }
  intros _. apply querying_bind; [apply querying_setattr|].
  intros _. by apply querying_silent.
Qed.

Lemma querying_vertex_loop obj : querying (vertex_loop black obj).
Proof. apply querying_for_each, querying_vertex_body. Qed.

(** *** How the loop body can fail *)

Lemma edge_loop_Raise_inv es acc s e s' :
  for_each es edge_body acc s = (Raise e, s') → ∃ msg, e = HostError msg.
Proof.
  revert acc s. induction es as [|x es IH]; intros [totalLen edgCnt] s Hrun;
    [done|].
  cbn [for_each] in Hrun.
  apply bind_Raise_inv in Hrun as [Hbody|(acc1 & s1 & _ & Hrest)];
    [|by eapply IH].
  rewrite edge_body_run in Hbody.
  destruct (getLength x); simplify_eq. by eexists.
Qed.

Lemma vertex_body_Raise_inv i v colors st tr e s' :
  vertex_body black (i, v) colors {| store := st; trace := tr |}
  = (Raise e, s') →
  (e = ZeroDivisionError ∧ connectedEdges v = Returns [])
  ∨ ∃ msg, e = HostError msg.
Proof.
  intros Hrun. pose proof Hrun as Hrun'. unfold vertex_body in Hrun'.
  apply bind_Raise_inv in Hrun' as [Hes|(es & s1 & Hes & Hrun')].
  { unfold host in Hes. destruct (connectedEdges v); simpl in Hes; simplify_eq.
    right. by eexists. }
  apply host_Ok_inv in Hes as [Hes ->].
  apply bind_Raise_inv in Hrun'
    as [Hloop|([totalLen edgCnt] & s2 & Hloop & Hrun')].
  { right. by eapply edge_loop_Raise_inv. }
  pose proof Hloop as [ls Hls]%edge_loop_Ok_inv.
  unfold log in Hloop; cbn [store trace] in Hloop.
  rewrite (edge_loop_Ok _ _ _ _ _ _ Hls) in Hloop. injection Hloop as <- <- <-.
  destruct es as [|x es].
  { left. split; [|done]. inversion Hls; subst.
    apply bind_Raise_inv in Hrun' as [Hdiv|(? & ? & Hdiv & _)];
      unfold lift in Hdiv; [by injection Hdiv as <- _ | discriminate Hdiv]. }
  destruct (getColor v 0%Z) as [prior|msg] eqn:Hprior.
  - erewrite vertex_body_Ok in Hrun by (by split). discriminate.
  - right. exists msg.
    assert (x :: es ≠ []) as Hne by done.
    assert (ls ≠ []) as Hne' by (by inversion Hls).
    rewrite total_of_lengths, Z.add_0_l in Hrun' by done.
    erewrite bind_Ok in Hrun'
      by (unfold lift; rewrite div_by_count by (simpl; lia); reflexivity).
    erewrite bind_Raise in Hrun' by reflexivity.
    by simplify_eq.
Qed.
Lemma vertex_loop_Raise_inv ivs colors st tr e s' :
  for_each ivs (vertex_body black) colors {| store := st; trace := tr |}
  = (Raise e, s') →
  ∃ iv colors1 st1 tr1,
    iv ∈ ivs
    ∧ vertex_body black iv colors1 {| store := st1; trace := tr1 |}
      = (Raise e, s').
Proof.
  revert colors st tr.
  induction ivs as [|[i v] ivs IH]; intros colors st tr Hrun; [done|].
  cbn [for_each] in Hrun.
  apply bind_Raise_inv in Hrun as [Hbody|(colors1 & s1 & Hbody & Hrest)].
  - exists (i, v), colors, st, tr. split; [left | done].
  - apply vertex_body_computed in Hbody as (c & _ & -> & ->).
    destruct (IH _ _ _ Hrest) as (iv & colors2 & st2 & tr2 & Hin & Hiv).
    exists iv, colors2, st2, tr2. split; [by right | done].
Qed.

Lemma host_Raise_inv {A} ev (h : answer A) s e s' :
  host ev h s = (Raise e, s') → ∃ msg, e = HostError msg.
Proof. unfold host. destruct h; simpl; intros; simplify_eq. by eexists. Qed.

(** [doIt] fails on a vertex without connected edges or when the host
    does; it never meets a reference to no object. *)
Lemma doIt_Raise_inv obj s e s' :
  doIt black obj s = (Raise e, s') →
  (e = ZeroDivisionError ∧ ∃ v, v ∈ vtx obj ∧ connectedEdges v = Returns [])
  ∨ ∃ msg, e = HostError msg.
Proof.
  destruct s as [st tr]. unfold doIt, vertex_loop. intros Hrun.
  apply bind_Raise_inv in Hrun as [Hcreate|([] & s1 & Hcreate & Hrun)];
    [right; by eapply host_Raise_inv|].
  apply host_Ok_inv in Hcreate as [_ ->]. unfold log in Hrun.
  cbn [store trace] in Hrun.
  apply bind_Raise_inv in Hrun as [Hloop|(colors & s2 & Hloop & Hrun)].
  { apply vertex_loop_Raise_inv
      in Hloop as ([i v] & colors1 & st1 & tr1 & Hin & Hbody).
    apply vertex_body_Raise_inv in Hbody as [[-> Hnil]|?]; [left|by right].
    split; [done|]. exists v. split; [|done].
    rewrite <- (enumerate_snd (vtx obj)). apply list_elem_of_fmap.
    by exists (i, v). }
  pose proof Hloop as [cs Hcs]%vertex_loop_Ok_inv.
  rewrite (vertex_loop_Ok _ _ _ _ _ Hcs) in Hloop.
  rewrite app_nil_l in Hloop. injection Hloop as <- <-.
  apply bind_Raise_inv in Hrun as [Hprint|([] & s3 & Hprint & Hrun)];
    [discriminate|].
  injection Hprint as <-. unfold log in Hrun; cbn [store trace] in Hrun.
  rewrite (Forall2_length _ _ _ Hcs) in Hrun.
  erewrite bind_Ok in Hrun by apply deref_all_new.
  right.
  apply bind_Raise_inv in Hrun as [Hset|([] & s4 & _ & Hrun)];
    [by eapply host_Raise_inv|].
  apply bind_Raise_inv in Hrun as [Hupd|([] & s5 & _ & Hrun)];
    by eapply host_Raise_inv.
Qed.
End doIt_facts.

Section doIt_spec.
Import SetVertexColor.

Lemma lengths_unique es ls ls' :
  Forall2 (λ e l, getLength e = Returns l) es ls →
  Forall2 (λ e l, getLength e = Returns l) es ls' → ls = ls'.
Proof.
  intros H. revert ls'. induction H as [|e l es ls He _ IH]; intros ls' H';
    inversion H'; subst; [done|].
  f_equal; [congruence | by apply IH].
Qed.

Lemma answers_unique v es ls prior es' ls' prior' :
  answers v es ls prior → answers v es' ls' prior' →
  es' = es ∧ ls' = ls ∧ prior' = prior.
Proof.
  intros [He Hl _ Hp] [He' Hl' _ Hp'].
  assert (es' = es) as -> by congruence.
  split_and!; [done | by eapply lengths_unique | congruence].
Qed.

Lemma vertex_queries_are_queries v :
  Forall (λ ev, is_query ev = true) (vertex_queries v).
Proof.
  unfold vertex_queries. constructor; [done|].
  destruct (connectedEdges v) as [es|]; [|done].
  apply Forall_app. split; [|by repeat constructor].
  by apply Forall_fmap, Forall_true.
Qed.

Lemma all_queries_are_queries vs :
  Forall (λ ev, is_query ev = true) (concat (map vertex_queries vs)).
Proof.
  apply Forall_concat, Forall_fmap, Forall_true. intros v.
  apply vertex_queries_are_queries.
Qed.

Lemma set_colors_calls_queries qs :
  Forall (λ ev, is_query ev = true) qs → set_colors_calls qs = [].
Proof.
  induction 1 as [|ev qs Hq _ IH]; [done|].
  unfold set_colors_calls in *. cbn. by destruct ev.
Qed.

Lemma set_colors_calls_doIt_trace obj cs :
  set_colors_calls (doIt_trace obj cs) = [cs].
Proof.
  unfold doIt_trace, set_colors_calls. cbn [omap list_omap].
  rewrite omap_app.
  fold (set_colors_calls (concat (map vertex_queries (vtx obj)))).
  by rewrite set_colors_calls_queries by apply all_queries_are_queries.
Qed.

(** C3: for a vertex with at least one connected edge, the red channel of
    the colour the loop body builds is the arithmetic mean of the lengths
    of its connected edges; for the lengths 2.0, 4.0 and 6.0 it is 4.0. *)
Theorem red_is_mean_edge_length black i v colors s colors' s' es ls :
  connectedEdges v = Returns es →
  es ≠ [] →
  Forall2 (λ e l, getLength e = Returns l) es ls →
  vertex_body black (i, v) colors s = (Ok colors', s') →
  ∃ ref c,
    colors' = colors ++ [ref] ∧ store s' !! ref = Some c
    ∧ Color.r c = mean ls
    ∧ (ls = [2; 4; 6]%float → Color.r c = 4%float).
Proof.
  intros Hes Hne Hls Hrun. destruct s as [st tr].
  destruct (vertex_body_Ok_inv _ _ _ _ _ _ _ Hrun)
    as (es' & ls' & prior & Hv).
  destruct (answers_unique v es' ls' prior es ls prior) as (_ & <- & _);
    [done | by destruct Hv; split; [| |done|]; congruence |].
  rewrite (vertex_body_Ok _ _ _ _ _ _ _ _ _ Hv) in Hrun.
  injection Hrun as <- <-.
  exists (length st), (vertex_color black ls prior). cbn [store].
  split_and!; [done | by apply list_lookup_middle | ..].
  - unfold vertex_color. by destruct (Color.b prior <=? 0)%float.
  - intros ->. unfold vertex_color.
    by destruct (Color.b prior <=? 0)%float.
Qed.

Lemma red_is_mean_edge_length_witness :
  ∃ c,
    (vertex_body Scenario.black (0, Scenario.v_no_blue) [] empty).1 = Ok [0]
    ∧ store (vertex_body Scenario.black (0, Scenario.v_no_blue) [] empty).2
        !! 0 = Some c
    ∧ Color.r c = 4%float.
Proof.
  destruct (red_is_mean_edge_length Scenario.black 0 Scenario.v_no_blue []
              empty [0]
              (vertex_body Scenario.black (0, Scenario.v_no_blue) [] empty).2
              (imap Scenario.edge Scenario.lengths) Scenario.lengths)
    as (ref & c & Href & Hc & _ & Hr).
  - reflexivity.
  - discriminate.
  - repeat constructor.
  - vm_compute. reflexivity.
  - injection Href as <-. exists c.
    split_and!; [by vm_compute | done | by apply Hr].
Defined.

(** The colours of a call that returns, vertex by vertex. *)
Lemma doIt_written black obj s s' :
  doIt black obj s = (Ok (), s') →
  ∃ cs,
    trace s' = trace s ++ doIt_trace obj cs
    ∧ store s' = store s ++ cs
    ∧ Forall2 (λ v c, computed_color black v = Some c) (vtx obj) cs.
Proof.
  destruct s as [st tr]. intros (cs & Hcs & -> & _)%doIt_Ok_inv.
  by exists cs.
Qed.

Lemma computed_color_of_answers black v es ls prior c :
  computed_color black v = Some c →
  connectedEdges v = Returns es →
  Forall2 (λ e l, getLength e = Returns l) es ls →
  getColor v 0%Z = Returns prior →
  c = vertex_color black ls prior.
Proof.
  intros (es' & ls' & prior' & Hv & ->)%computed_color_Some_inv Hes Hls Hp.
  destruct Hv as [Hes' Hls' _ Hp'].
  assert (es' = es) as -> by congruence.
  assert (prior' = prior) as -> by congruence.
  by rewrite (lengths_unique _ _ _ Hls' Hls).
Qed.

(** C1, as amended: in the colour written back for a vertex, red is the
    mean edge length; blue is the mean edge length when the prior blue is
    [<= 0.0], and otherwise (in particular for a positive prior blue) it
    is the blue of [Color.black]: the prior value is not copied. *)
Theorem blue_set_only_when_unset black obj s s' i v es ls prior :
  doIt black obj s = (Ok (), s') →
  vtx obj !! i = Some v →
  connectedEdges v = Returns es →
  Forall2 (λ e l, getLength e = Returns l) es ls →
  getColor v 0%Z = Returns prior →
  ∃ cs c,
    set_colors_calls (drop (length (trace s)) (trace s')) = [cs]
    ∧ cs !! i = Some c
    ∧ Color.r c = mean ls
    ∧ ((Color.b prior <=? 0)%float = true → Color.b c = mean ls)
    ∧ ((Color.b prior <=? 0)%float = false → Color.b c = Color.b black)
    ∧ ((0 <? Color.b prior)%float = true → Color.b c = Color.b black).
Proof.
  intros (cs & Htr & _ & Hcs)%doIt_written Hv Hes Hls Hprior.
  destruct (Forall2_lookup_l _ _ _ _ _ Hcs Hv) as (c & Hc & Hcomp).
  pose proof (computed_color_of_answers _ _ _ _ _ _ Hcomp Hes Hls Hprior)
    as ->.
  exists cs, (vertex_color black ls prior).
  rewrite Htr, drop_app_length, set_colors_calls_doIt_trace.
  unfold vertex_color.
  split_and!; [done | done | ..].
  - by destruct (Color.b prior <=? 0)%float.
  - by intros ->.
  - by intros ->.
  - by intros ->%positive_not_leb_zero.
Qed.

Lemma blue_set_only_when_unset_witness :
  ∃ cs c,
    set_colors_calls (trace (doIt Scenario.black Scenario.two_vertices empty).2)
    = [cs]
    ∧ cs !! 1%nat = Some c
    ∧ Color.r c = 4%float ∧ Color.b c = 0%float.
Proof.
  destruct (blue_set_only_when_unset Scenario.black Scenario.two_vertices
              empty (doIt Scenario.black Scenario.two_vertices empty).2
              1 Scenario.v_half_blue
              (imap Scenario.edge Scenario.lengths) Scenario.lengths
              Scenario.half_blue)
    as (cs & c & Hcalls & Hc & Hr & _ & _ & Hb).
  - vm_compute. reflexivity.
  - reflexivity.
  - reflexivity.
  - repeat constructor.
  - reflexivity.
  - exists cs, c. split_and!; [done | done | by rewrite Hr | by rewrite Hb].
Defined.

(** C1, as stated, fails: the second vertex has the prior blue 0.5, and
    the colour written back for it has the blue 0.0 of black, not 0.5. *)
Lemma positive_blue_not_kept :
  ∃ c,
    vtx Scenario.two_vertices !! 1%nat = Some Scenario.v_half_blue
    ∧ getColor Scenario.v_half_blue 0%Z = Returns Scenario.half_blue
    ∧ (0 <? Color.b Scenario.half_blue)%float = true
    ∧ set_colors_calls
        (trace (doIt Scenario.black Scenario.two_vertices empty).2)
      = [[vertex_color Scenario.black Scenario.lengths Scenario.no_blue; c]]
    ∧ Color.r c = 4%float
    ∧ Color.b c = 0%float
    ∧ (Color.b c =? Color.b Scenario.half_blue)%float = false.
Proof. eexists. vm_compute. by split_and!. Qed.

(** C2: the loop body divides the total length by the number of connected
    edges without a guard.  A vertex with no connected edge makes it raise
    [ZeroDivisionError]; for a vertex with at least one connected edge it
    never raises that error, and it returns when the host answers the
    queries about the vertex; and on a mesh whose vertices all have a
    connected edge [doIt] never raises it. *)
Theorem division_by_edge_count black i v colors s :
  (connectedEdges v = Returns [] →
   (vertex_body black (i, v) colors s).1 = Raise ZeroDivisionError)
  ∧ (∀ es, connectedEdges v = Returns es → es ≠ [] →
       (vertex_body black (i, v) colors s).1 ≠ Raise ZeroDivisionError)
  ∧ (∀ es ls prior,
       connectedEdges v = Returns es → es ≠ [] →
       Forall2 (λ e l, getLength e = Returns l) es ls →
       getColor v 0%Z = Returns prior →
       ∃ ref, (vertex_body black (i, v) colors s).1 = Ok (colors ++ [ref]))
  ∧ (∀ obj,
       Forall (λ u, ∃ es, connectedEdges u = Returns es ∧ es ≠ []) (vtx obj) →
       (doIt black obj s).1 ≠ Raise ZeroDivisionError).
Proof.
  destruct s as [st tr]. split_and!.
  - intros Hes. unfold vertex_body.
    erewrite bind_Ok by (by apply host_Returns).
    erewrite bind_Ok by reflexivity. cbv beta iota.
    by erewrite bind_Raise by reflexivity.
  - intros es Hes Hne Hrun.
    destruct (vertex_body black (i, v) colors {| store := st; trace := tr |})
      as [r s'] eqn:Hbody.
    cbn in Hrun. subst r.
    apply vertex_body_Raise_inv in Hbody as [[_ Hnil]|[msg ?]];
      [congruence | done].
  - intros es ls prior Hes Hne Hls Hprior. exists (length st).
    by erewrite vertex_body_Ok by done.
  - intros obj Hall Hrun.
    destruct (doIt black obj {| store := st; trace := tr |})
      as [r s'] eqn:HdoIt.
    cbn in Hrun. subst r.
    apply doIt_Raise_inv in HdoIt as [(_ & u & Hin & Hnil)|[msg ?]]; [|done].
    rewrite Forall_forall in Hall.
    destruct (Hall u Hin) as (es & Hes & Hne). congruence.
Qed.

Lemma division_by_edge_count_witness :
  (vertex_body Scenario.black (1, Scenario.v_isolated) [0] empty).1
  = Raise ZeroDivisionError
  ∧ (∃ ref, (vertex_body Scenario.black (0, Scenario.v_no_blue) [] empty).1
            = Ok ([] ++ [ref]))
  ∧ (doIt Scenario.black Scenario.two_vertices empty).1
    ≠ Raise ZeroDivisionError.
Proof.
  split_and!.
  - apply (division_by_edge_count Scenario.black 1 Scenario.v_isolated [0]
             empty).
    reflexivity.
  - apply (division_by_edge_count Scenario.black 0 Scenario.v_no_blue []
             empty)
      with (es := imap Scenario.edge Scenario.lengths)
           (ls := Scenario.lengths) (prior := Scenario.no_blue).
    + reflexivity.
    + discriminate.
    + repeat constructor.
    + reflexivity.
  - apply (division_by_edge_count Scenario.black 0 Scenario.v_no_blue []
             empty).
    repeat constructor; by eexists.
Defined.

(** C6: a call that returns has made its host calls in this order: first
    [createColorSet('edgeLength')]; then, vertex by vertex, the queries of
    each vertex, one colour being built for each; then the output of the
    number of colours, one [setColors] with the whole list,
    [updateSurface], and [polyColorPerVertex] with [e=1] and
    [colorDisplayOption=1]. *)
Theorem doIt_steps_in_order black obj s s' :
  doIt black obj s = (Ok (), s') →
  ∃ cs,
    trace s' = trace s
               ++ [ECreateColorSet "edgeLength"]
               ++ concat (map vertex_queries (vtx obj))
               ++ [EPrint (Z.of_nat (length (vtx obj))); ESetColors cs;
                   EUpdateSurface; EPolyColorPerVertex 1 1]
    ∧ Forall (λ ev, is_query ev = true)
        (concat (map vertex_queries (vtx obj)))
    ∧ Forall2 (λ v c, computed_color black v = Some c) (vtx obj) cs.
Proof.
  intros (cs & Htr & _ & Hcs)%doIt_written. exists cs.
  split_and!; [done | apply all_queries_are_queries | done].
Qed.

Lemma doIt_steps_in_order_witness :
  ∃ cs,
    trace (doIt Scenario.black Scenario.two_vertices empty).2
    = [ECreateColorSet "edgeLength";
       EConnectedEdges 0; EGetLength 0; EGetLength 1; EGetLength 2;
       EGetColor 0 0;
       EConnectedEdges 1; EGetLength 0; EGetLength 1; EGetLength 2;
       EGetColor 1 0;
       EPrint 2; ESetColors cs; EUpdateSurface; EPolyColorPerVertex 1 1]
    ∧ length cs = 2%nat.
Proof.
  destruct (doIt_steps_in_order Scenario.black Scenario.two_vertices empty
              (doIt Scenario.black Scenario.two_vertices empty).2)
    as (cs & Htr & _ & Hcs).
  - vm_compute. reflexivity.
  - exists cs. split; [exact Htr | by apply Forall2_length in Hcs].
Defined.

Lemma vertex_body_Raise_not_computed black i v colors s e s' :
  vertex_body black (i, v) colors s = (Raise e, s') →
  computed_color black v = None.
Proof.
  intros Hrun. destruct s as [st tr].
  destruct (computed_color black v) as [c|] eqn:Hc; [|done].
  by rewrite (vertex_body_of_computed black i v c colors st tr Hc) in Hrun.
Qed.

Lemma queries_no_write_back qs :
  Forall (λ ev, is_query ev = true) qs →
  Forall (λ ev, is_write_back ev = false) qs
  ∧ filter (λ ev, is_mutation ev = true) qs = [].
Proof.
  induction 1 as [|ev qs Hq _ [IH1 IH2]]; [done|]. split.
  - constructor; [by destruct ev | done].
  - rewrite filter_cons_False; [done | by destruct ev].
Qed.

(** C8: when the loop over the vertices raises, [doIt] raises the same
    exception; and when the loop body raises for a vertex of the mesh,
    [doIt] raises, with a trace that holds the call of [createColorSet] and
    host queries only: none of [setColors], [updateSurface] and
    [polyColorPerVertex] was called, and [createColorSet] is the mesh's only
    change. *)
Theorem vertex_exception_propagates black obj s :
  (∀ e s1,
     createColorSet obj "edgeLength" = Returns () →
     vertex_loop black obj (log (ECreateColorSet "edgeLength") s)
     = (Raise e, s1) →
     doIt black obj s = (Raise e, s1))
  ∧ (∀ i v colors0 s0 e0,
       v ∈ vtx obj →
       (vertex_body black (i, v) colors0 s0).1 = Raise e0 →
       ∃ e s1 qs,
         doIt black obj s = (Raise e, s1)
         ∧ trace s1 = trace s ++ ECreateColorSet "edgeLength" :: qs
         ∧ Forall (λ ev, is_query ev = true) qs
         ∧ Forall (λ ev, is_write_back ev = false)
             (ECreateColorSet "edgeLength" :: qs)
         ∧ filter (λ ev, is_mutation ev = true)
             (ECreateColorSet "edgeLength" :: qs)
           = [ECreateColorSet "edgeLength"]).
Proof.
  assert (∀ e s1,
     createColorSet obj "edgeLength" = Returns () →
     vertex_loop black obj (log (ECreateColorSet "edgeLength") s)
     = (Raise e, s1) →
     doIt black obj s = (Raise e, s1)) as Hprop.
  { intros e s1 Hcreate Hloop. unfold doIt.
    erewrite bind_Ok by (by apply host_Returns). by erewrite bind_Raise. }
  split; [done|].
  intros i v colors0 s0 e0 Hin Hbody.
  destruct (vertex_body black (i, v) colors0 s0) as [r s0'] eqn:Hrun.
  cbn in Hbody. subst r.
  apply vertex_body_Raise_not_computed in Hrun.
  assert (∀ qs, Forall (λ ev, is_query ev = true) qs →
    Forall (λ ev, is_write_back ev = false)
      (ECreateColorSet "edgeLength" :: qs)
    ∧ filter (λ ev, is_mutation ev = true)
        (ECreateColorSet "edgeLength" :: qs)
      = [ECreateColorSet "edgeLength"]) as Hqs.
  { intros qs [H1 H2]%queries_no_write_back. split; [by constructor|].
    by rewrite filter_cons_True, H2 by done. }
  destruct (createColorSet obj "edgeLength") as [[]|msg] eqn:Hcreate.
  - destruct (vertex_loop black obj (log (ECreateColorSet "edgeLength") s))
      as [[colors|e] s1] eqn:Hloop.
    + destruct s as [st tr]. unfold vertex_loop, log in Hloop.
      cbn [store trace] in Hloop.
      apply vertex_loop_Ok_inv in Hloop as [cs Hcs].
      apply (Forall2_fmap_l snd (λ v c, computed_color black v = Some c))
        in Hcs.
      rewrite enumerate_snd in Hcs.
      apply list_elem_of_lookup in Hin as [k Hk].
      destruct (Forall2_lookup_l _ _ _ _ _ Hcs Hk) as (c & _ & Hc).
      congruence.
    + destruct (querying_vertex_loop _ _ _ _ _ Hloop) as (qs & Htr & Hq).
      cbn [log trace] in Htr. rewrite <- app_assoc in Htr.
      exists e, s1, qs. destruct (Hqs qs Hq). split_and!; auto.
  - exists (HostError msg), (log (ECreateColorSet "edgeLength") s), [].
    destruct (Hqs [] (Forall_nil_2 _)). split_and!; auto.
    unfold doIt. by erewrite bind_Raise by (unfold host; by rewrite Hcreate).
Qed.

Lemma vertex_exception_propagates_witness :
  doIt Scenario.black Scenario.with_isolated empty
  = (Raise ZeroDivisionError,
     {| store := [vertex_color Scenario.black Scenario.lengths
                    Scenario.no_blue];
        trace := [ECreateColorSet "edgeLength";
                  EConnectedEdges 0; EGetLength 0; EGetLength 1;
                  EGetLength 2; EGetColor 0 0; EConnectedEdges 2] |})
  ∧ ∃ e s1 qs,
      doIt Scenario.black Scenario.with_isolated empty = (Raise e, s1)
      ∧ trace s1 = ECreateColorSet "edgeLength" :: qs
      ∧ Forall (λ ev, is_write_back ev = false) (trace s1).
Proof.
  split.
  - apply (vertex_exception_propagates Scenario.black Scenario.with_isolated
             empty).
    + reflexivity.
    + vm_compute. reflexivity.
  - destruct (vertex_exception_propagates Scenario.black
                Scenario.with_isolated empty) as [_ Hany].
    destruct (Hany 1%nat Scenario.v_isolated [] empty ZeroDivisionError)
      as (e & s1 & qs & Hrun & Htr & _ & Hwb & _).
    + right; left.
    + reflexivity.
    + exists e, s1, qs. cbn [trace empty app] in Htr.
      split_and!; [done | done | by rewrite Htr].
Defined.
(** C9: a call that returns has called [setColors] once, with a list that
    holds one colour per vertex of the mesh, the i-th colour being the
    one the loop body builds for the i-th vertex of [obj.vtx]. *)
Theorem one_color_per_vertex black obj s s' :
  doIt black obj s = (Ok (), s') →
  ∃ cs,
    set_colors_calls (drop (length (trace s)) (trace s')) = [cs]
    ∧ length cs = length (vtx obj)
    ∧ ∀ i v, vtx obj !! i = Some v →
             is_Some (cs !! i) ∧ cs !! i = computed_color black v.
Proof.
  intros (cs & Htr & _ & Hcs)%doIt_written. exists cs.
  rewrite Htr, drop_app_length, set_colors_calls_doIt_trace.
  split_and!; [done | by apply Forall2_length in Hcs |].
  intros i v Hv.
  destruct (Forall2_lookup_l _ _ _ _ _ Hcs Hv) as (c & -> & ->). eauto.
Qed.

Lemma one_color_per_vertex_witness :
  set_colors_calls (trace (doIt Scenario.black Scenario.two_vertices empty).2)
  = [[Color.mk 4 0 4 1; Color.mk 4 0 0 1]]
  ∧ computed_color Scenario.black Scenario.v_no_blue
    = Some (Color.mk 4 0 4 1)
  ∧ computed_color Scenario.black Scenario.v_half_blue
    = Some (Color.mk 4 0 0 1).
Proof.
  destruct (one_color_per_vertex Scenario.black Scenario.two_vertices empty
              (doIt Scenario.black Scenario.two_vertices empty).2)
    as (cs & Hcalls & Hlen & Hcs).
  - vm_compute. reflexivity.
  - vm_compute. by split_and!.
Defined.

(** C10: every colour written back is an object made during the call
    from the channel values of [Color.black], with its red channel, and
    its blue channel under the condition, set to one value; so its green
    (and alpha) channel is that of black whatever the prior colour of the
    vertex, and a vertex that differs only in the channels of its prior
    colour other than blue gets the same colour. *)
Theorem written_color_built_from_black black obj s s' :
  doIt black obj s = (Ok (), s') →
  ∃ cs,
    set_colors_calls (drop (length (trace s)) (trace s')) = [cs]
    ∧ store s' = store s ++ cs
    ∧ ∀ i v c, vtx obj !! i = Some v → cs !! i = Some c →
        Color.g c = Color.g black
        ∧ Color.a c = Color.a black
        ∧ (∃ x, c = Color.set_r black x
                ∨ c = Color.set_r (Color.set_b black x) x)
        ∧ ∀ v' prior prior',
            connectedEdges v' = connectedEdges v →
            getColor v 0%Z = Returns prior →
            getColor v' 0%Z = Returns prior' →
            Color.b prior' = Color.b prior →
            computed_color black v' = Some c.
Proof.
  intros (cs & Htr & Hst & Hcs)%doIt_written. exists cs.
  rewrite Htr, drop_app_length, set_colors_calls_doIt_trace.
  split_and!; [done | done |].
  intros i v c Hv Hc.
  destruct (Forall2_lookup_l _ _ _ _ _ Hcs Hv) as (c' & Hc' & Hcomp).
  assert (c' = c) as -> by congruence.
  apply computed_color_Some_inv in Hcomp
    as (es & ls & prior & [Hes Hls Hne Hprior] & ->).
  unfold vertex_color. split_and!.
  - by destruct (Color.b prior <=? 0)%float.
  - by destruct (Color.b prior <=? 0)%float.
  - exists (mean ls). destruct (Color.b prior <=? 0)%float; eauto.
  - intros v' prior0 prior' Hes' Hprior0 Hprior' Hb.
    assert (prior0 = prior) as -> by congruence.
    rewrite (computed_color_answers black v' es ls prior');
      [unfold vertex_color; by rewrite Hb | split; congruence].
Qed.

Lemma written_color_built_from_black_witness :
  ∃ c,
    set_colors_calls (trace (doIt Scenario.black Scenario.two_vertices empty).2)
    = [[Color.mk 4 0 4 1; c]]
    ∧ Color.g c = 0%float
    ∧ computed_color Scenario.black
        (Scenario.vertex 7 Scenario.lengths (Color.mk 1 1 0.5 0))
      = Some c.
Proof.
  destruct (written_color_built_from_black Scenario.black
              Scenario.two_vertices empty
              (doIt Scenario.black Scenario.two_vertices empty).2)
    as (cs & Hcalls & _ & Hcs).
  - vm_compute. reflexivity.
  - vm_compute in Hcalls. injection Hcalls as <-.
    destruct (Hcs 1%nat Scenario.v_half_blue (Color.mk 4 0 0 1))
      as (Hg & _ & _ & Hsame); [reflexivity | reflexivity |].
    exists (Color.mk 4 0 0 1). split_and!; [by vm_compute | exact Hg |].
    by apply (Hsame _ Scenario.half_blue (Color.mk 1 1 0.5 0)).
Defined.
End doIt_spec.

(** ** The package's start-up *)

Section init_facts.
Import PymelInit.
Variable host : Host.
Implicit Types (s : state) (x m : string) (v : value).

Lemma assign_Ok_inv x v s a s1 :
  assign x v s = (Ok a, s1) →
  s1 = {| globals := <[x := v]> (globals s); trace := trace s |}.
Proof. by intros [= _ <-]. Qed.

Lemma print_Ok_inv msg s a s1 :
  print msg s = (Ok a, s1) → s1 = log (EPrint msg) s.
Proof. by intros [= _ <-]. Qed.

Lemma lookup_Ok_inv x s v s1 :
  lookup x s = (Ok v, s1) → globals s !! x = Some v ∧ s1 = s.
Proof.
  unfold lookup. destruct (globals s !! x); intros; by simplify_eq.
Qed.

Lemma import_as_Ok_inv ev m s a s1 :
  import_as host ev m s = (Ok a, s1) →
  import host m = Ok () ∧ s1 = log ev s.
Proof. unfold import_as. destruct a. by intros [= -> <-]. Qed.

Lemma import_star_Ok_inv m s a s1 :
  import_star host m s = (Ok a, s1) →
  import host m = Ok ()
  ∧ s1 = {| globals := star host m ∪ globals s;
            trace := trace s ++ [EImportStar m] |}.
Proof.
  unfold import_star. intros (? & ? & [? ->]%import_as_Ok_inv & Hb)%bind_Ok_inv.
  by injection Hb as _ <-.
Qed.

Lemma call_value_Ok_inv f args kwargs s v s1 :
  call_value host f args kwargs s = (Ok v, s1) →
  call host f args kwargs = Returns v ∧ s1 = log (ECall f args kwargs) s.
Proof.
  unfold call_value. destruct (call host f args kwargs); simpl; intros;
    by simplify_eq.
Qed.

Lemma assert_Ok_inv v s a s1 :
  (if truthy v then ret () else raise AssertionError) s = (Ok a, s1) →
  truthy v = true ∧ s1 = s.
Proof. unfold ret, raise. destruct (truthy v); intros; by simplify_eq. Qed.

Lemma builtin_import_Ok_inv v s v' s1 :
  builtin_import host v s = (Ok v', s1) →
  ∃ n, v = VStr n ∧ n ≠ "" ∧ load host n = Ok ()
       ∧ v' = VModule (top_level n) ∧ s1 = log (EBuiltinImport v) s.
Proof.
  unfold builtin_import. destruct v as [| | |n| | |]; try by intros [=].
  destruct (String.eqb_spec n "") as [->|Hn]; [by intros [=]|].
  destruct (load host n) as [[]|e] eqn:Hload; intros [= <- <-]. eauto 6.
Qed.

(** The top-level package of a dotted name: the name itself when it has
    no dot, else what stands before the first dot. *)
Lemma top_level_prefix name :
  name = top_level name ∨ ∃ rest, name = top_level name +:+ "." +:+ rest.
Proof.
  induction name as [|c name IH]; [by left|]. cbn [top_level].
  destruct (Ascii.eqb_spec c ".") as [->|_]; [right; by exists name|].
  destruct IH as [IH|[rest IH]]; [left; congruence | right; exists rest].
  rewrite IH at 1. reflexivity.
Qed.

Lemma top_level_no_dot name :
  "."%char ∉ String.list_ascii_of_string (top_level name).
Proof.
  induction name as [|c name IH]; cbn [top_level].
  - apply not_elem_of_nil.
  - destruct (Ascii.eqb_spec c ".") as [->|Hc]; [apply not_elem_of_nil|].
    cbn. rewrite not_elem_of_cons. split; [congruence | done].
Qed.


Lemma union_lookup_default (g h : gmap string value) x v :
  h !! x = Some v → (g ∪ h) !! x = Some (default v (g !! x)).
Proof. intros Hv. rewrite lookup_union. destruct (g !! x); by rewrite Hv. Qed.

Lemma run_test_Ok_inv s a s1 :
  _test host s = (Ok a, s1) →
  trace s1 = trace s
             ++ [EImport "doctest";
                 ECall (VAttr (VModule "doctest") "testmod") []
                   [("verbose", VBool true)]]
  ∧ globals s1 = globals s.
Proof.
  unfold _test, import_module.
  intros (? & ? & [_ ->]%import_as_Ok_inv & Hrun)%bind_Ok_inv.
  apply bind_Ok_inv in Hrun as (? & ? & [_ ->]%call_value_Ok_inv & Hrun).
  injection Hrun as _ <-. cbn. by rewrite <- app_assoc.
Qed.

End init_facts.

(** One step of a run that returns: the statement's effect on the state is
    substituted, what it learns about the host is kept as [p]. *)
Tactic Notation "step" hyp(H) "as" simple_intropattern(p) :=
  let Hm := fresh "Hm" in
  apply bind_Ok_inv in H as (? & ? & Hm & H);
  first
    [ apply assign_Ok_inv in Hm as ->
    | apply print_Ok_inv in Hm as ->
    | apply import_as_Ok_inv in Hm as [p ->]
    | apply import_star_Ok_inv in Hm as [p ->]
    | apply lookup_Ok_inv in Hm as [p ->]
    | apply call_value_Ok_inv in Hm as [p ->]
    | apply assert_Ok_inv in Hm as [p ->]
    | apply builtin_import_Ok_inv in Hm as (? & p & ? & ? & -> & ->) ];
  cbn [PymelInit.globals PymelInit.trace PymelInit.log PymelInit.fresh] in *.

Section init_spec.
Import PymelInit.
Variable host : Host.

Lemma init_Ok_inv name s :
  init host (fresh name) = (Ok (), s) →
  ∃ factories nm,
    (star host "core" ∪ before_star name) !! "factories" = Some factories
    ∧ (star host "core" ∪ before_star name) !! "__name__" = Some (VStr nm)
    ∧ globals s
      = <["_test" := VFunction "_test"]>
          (<["cmds" := VModule "maya.cmds"]>
             (<["_module" := VModule (top_level nm)]>
                (<["pymel_test" := VAttr (VModule "util.test") "pymel_test"]>
                   (star host "core" ∪ before_star name))))
    ∧ trace s = init_trace factories nm
                ++ (if String.eqb nm "__main__" then test_trace else []).
Proof.
  intros Hrun. unfold init, import_module in Hrun.
  step Hrun as ?. step Hrun as _. step Hrun as ?. step Hrun as ?.
  step Hrun as HmayaInit.
  rewrite lookup_insert_eq in HmayaInit. injection HmayaInit as <-.
  step Hrun as _. step Hrun as _.
  step Hrun as _. step Hrun as ?. step Hrun as _. step Hrun as ?.
  step Hrun as ?. step Hrun as _. step Hrun as ?. step Hrun as _.
  step Hrun as ?.
  step Hrun as Hname.
  apply bind_Ok_inv in Hrun
    as (m & ? & (nm & -> & _ & _ & -> & ->)%builtin_import_Ok_inv & Hrun).
  cbn [globals trace log] in Hrun.
  step Hrun as ?. step Hrun as Hfactories. step Hrun as Hmodule.
  rewrite lookup_insert_ne in Hname by done.
  rewrite !lookup_insert_ne in Hfactories by done.
  rewrite lookup_insert_eq in Hmodule. injection Hmodule as <-.
  step Hrun as _. step Hrun as _. step Hrun as ?. step Hrun as ?.
  apply bind_Ok_inv in Hrun as (v & s1 & [Hname2 ->]%lookup_Ok_inv & Hrun).
  cbn [globals] in Hname2.
  rewrite !lookup_insert_ne in Hname2 by done.
  assert (v = VStr nm) as -> by congruence.
  eexists _, nm. split_and!; [done | done | ..];
    cbn [is_main] in Hrun; destruct (String.eqb nm "__main__").
  - apply bind_Ok_inv in Hrun as (? & ? & [_ Hg]%run_test_Ok_inv & [= <-]).
    by rewrite Hg.
  - by injection Hrun as <-.
  - apply bind_Ok_inv in Hrun as (? & ? & [Ht _]%run_test_Ok_inv & [= <-]).
    by rewrite Ht.
  - injection Hrun as <-. by rewrite app_nil_r.
Qed.

(** What a run that returns has bound, but for the four names the package
    binds after the star import. *)
Lemma init_globals_lookup name s x :
  init host (fresh name) = (Ok (), s) →
  x ∉ package_names →
  globals s !! x = (star host "core" ∪ before_star name) !! x.
Proof.
  intros (f & nm & _ & _ & -> & _)%init_Ok_inv Hx.
  unfold package_names in Hx.
  rewrite !lookup_insert_ne; [done|..]; intros <-; apply Hx;
    repeat first [by left | right].
Qed.

(** C7: when the module's code has run, [cmds] is bound to the host's own
    command module [maya.cmds], also when [core] exports a [cmds] of its
    own. *)
Theorem cmds_is_raw_command_module name s :
  init host (fresh name) = (Ok (), s) →
  globals s !! "cmds" = Some (VModule "maya.cmds").
Proof.
  intros (f & nm & _ & _ & -> & _)%init_Ok_inv.
  by rewrite lookup_insert_ne, lookup_insert_eq.
Qed.


(** C4: when [mayaInit()] returns a false value, the module's code raises
    [AssertionError] there: the trace ends with the call of [mayaInit], and
    the namespace holds what was bound before it, so the bootstrap is the
    only step that ran: neither the factory nor [api] nor [core] was
    imported and [installCallbacks] was not called. *)
Theorem bootstrap_failure_aborts name ok :
  import host "mayahook" = Ok () →
  call host (VAttr (VModule "mayahook") "mayaInit") [] [] = Returns ok →
  truthy ok = false →
  ∃ s,
    init host (fresh name) = (Raise AssertionError, s)
    ∧ trace s = [EImport "mayahook"; EPrint "imported mayahook";
                 ECall (VAttr (VModule "mayahook") "mayaInit") [] []]
    ∧ omap step_of (trace s) = [Bootstrap]
    ∧ globals s = {[ "_mayaInit" := VAttr (VModule "mayahook") "mayaInit";
                     "__version__" := VStr "0.8.0";
                     "__name__" := VStr name ]}.
Proof.
  intros Himport Hcall Hok. eexists.
  unfold init, bind, assign, import_module, import_as, print, lookup,
    call_value.
  cbn [fresh globals trace log]. rewrite Himport.
  rewrite lookup_insert_eq, Hcall. cbn [of_answer]. rewrite Hok.
  by split_and!.
Qed.
End init_spec.

Section init_witnesses.
Import PymelInit.

Lemma cmds_is_raw_command_module_witness :
  star (Scenario.host (VBool true)) "core" !! "cmds"
  = Some (VModule "pymel.mayahook.pmcmds")
  ∧ globals (init (Scenario.host (VBool true)) (fresh "pymel")).2 !! "cmds"
    = Some (VModule "maya.cmds").
Proof.
  split; [reflexivity|].
  apply (cmds_is_raw_command_module (Scenario.host (VBool true)) "pymel").
  vm_compute. reflexivity.
Defined.



Lemma bootstrap_failure_aborts_witness :
  ∃ s,
    init (Scenario.host (VInt 0)) (fresh "pymel") = (Raise AssertionError, s)
    ∧ omap step_of (trace s) = [Bootstrap]
    ∧ globals s !! "factories" = None
    ∧ globals s !! "cmds" = None.
Proof.
  destruct (bootstrap_failure_aborts (Scenario.host (VInt 0)) "pymel"
              (VInt 0))
    as (s & Hrun & _ & Hsteps & Hglobals); [reflexivity..|].
  exists s. rewrite Hglobals. by split_and!.
Defined.
End init_witnesses.

(** ** Further properties of [doIt] *)

Section doIt_more.
Import SetVertexColor.

(** The edge loop stops at the first edge whose length the host does not
    give; what it raises and logs does not depend on the loop's variables. *)
Lemma edge_loop_Raise es acc st tr e s' :
  for_each es edge_body acc {| store := st; trace := tr |} = (Raise e, s') →
  ∃ k,
    k < length es
    ∧ ∀ acc' st' tr',
        for_each es edge_body acc' {| store := st'; trace := tr' |}
        = (Raise e,
           {| store := st';
              trace := tr' ++ map (λ x, EGetLength (edge_index x))
                                (take (S k) es) |}).
Proof.
  revert acc tr. induction es as [|x es IH]; intros [totalLen edgCnt] tr Hrun;
    [done|].
  cbn [for_each] in Hrun.
  apply bind_Raise_inv in Hrun as [Hbody|(acc1 & s1 & Hbody & Hrest)].
  - rewrite edge_body_run in Hbody.
    destruct (getLength x) as [l|msg] eqn:Hx; simplify_eq.
    exists 0. split; [simpl; lia|]. intros [t' n'] st' tr'.
    cbn [for_each]. erewrite bind_Raise; [done|].
    by rewrite edge_body_run, Hx.
  - rewrite edge_body_run in Hbody.
    destruct (getLength x) as [l|msg] eqn:Hx; simplify_eq.
    unfold log in Hrest; cbn [store trace] in Hrest.
    destruct (IH _ _ Hrest) as (k & Hk & Hall).
    exists (S k). split; [simpl; lia|]. intros [t' n'] st' tr'.
    cbn [for_each]. erewrite bind_Ok by (by rewrite edge_body_run, Hx).
    unfold log; cbn [store trace]. rewrite Hall.
    by rewrite <- app_assoc.
Qed.

(** A vertex the loop body fails on: the exception and the queries made up
    to it are the same from every state, no object is left behind, and
    the queries are a beginning of those of the vertex. *)
Lemma vertex_body_Raise black i v colors st tr e s' :
  vertex_body black (i, v) colors {| store := st; trace := tr |}
  = (Raise e, s') →
  ∃ qv,
    qv `prefix_of` vertex_queries v
    ∧ qv ≠ []
    ∧ ∀ i' colors' st' tr',
        vertex_body black (i', v) colors' {| store := st'; trace := tr' |}
        = (Raise e, {| store := st'; trace := tr' ++ qv |}).
Proof.
  intros Hrun. pose proof Hrun as Hrun'. unfold vertex_body in Hrun'.
  apply bind_Raise_inv in Hrun' as [Hes|(es & s1 & Hes & Hrun')].
  { unfold host in Hes.
    destruct (connectedEdges v) as [es|msg] eqn:Hv; simpl in Hes; simplify_eq.
    exists [EConnectedEdges (vtx_index v)]. split_and!.
    - unfold vertex_queries. by eexists.
    - done.
    - intros i' colors' st' tr'. unfold vertex_body.
      erewrite bind_Raise; [done|]. unfold host. by rewrite Hv. }
  apply host_Ok_inv in Hes as [Hes ->].
  unfold log in Hrun'; cbn [store trace] in Hrun'.
  apply bind_Raise_inv in Hrun'
    as [Hloop|([totalLen edgCnt] & s2 & Hloop & Hrun')].
  { apply edge_loop_Raise in Hloop as (k & Hk & Hall).
    exists (EConnectedEdges (vtx_index v)
            :: map (λ x, EGetLength (edge_index x)) (take (S k) es)).
    split_and!; [|done|].
    - unfold vertex_queries. rewrite Hes. apply prefix_cons.
      rewrite <- (take_drop (S k) es) at 2. rewrite map_app, <- app_assoc.
      by apply prefix_app_r.
    - intros i' colors' st' tr'. unfold vertex_body.
      erewrite bind_Ok by (by apply host_Returns).
      unfold log; cbn [store trace].
      erewrite bind_Raise by apply Hall. by rewrite <- app_assoc. }
  pose proof Hloop as [ls Hls]%edge_loop_Ok_inv.
  rewrite (edge_loop_Ok _ _ _ _ _ _ Hls) in Hloop. injection Hloop as <- <- <-.
  destruct es as [|x es].
  { exists [EConnectedEdges (vtx_index v)].
    assert (e = ZeroDivisionError) as ->.
    { inversion Hls; subst.
      apply bind_Raise_inv in Hrun' as [Hdiv|(? & ? & Hdiv & _)];
        unfold lift in Hdiv; [by injection Hdiv as <- _ | discriminate Hdiv]. }
    split_and!; [|done|].
    - unfold vertex_queries. by eexists.
    - intros i' colors' st' tr'. unfold vertex_body.
      erewrite bind_Ok by (by apply host_Returns).
      erewrite bind_Ok by reflexivity. cbv beta iota.
      by erewrite bind_Raise by reflexivity. }
  destruct (getColor v 0%Z) as [prior|msg] eqn:Hprior.
  { erewrite vertex_body_Ok in Hrun by (by split). discriminate. }
  assert (ls ≠ []) as Hne by (by inversion Hls).
  rewrite total_of_lengths, Z.add_0_l in Hrun' by done.
  erewrite bind_Ok in Hrun'
    by (unfold lift; rewrite div_by_count by (simpl; lia); reflexivity).
  erewrite bind_Raise in Hrun' by reflexivity. injection Hrun' as <- _.
  exists (vertex_queries v). split_and!; [done | done |].
  intros i' colors' st' tr'. unfold vertex_body, vertex_queries. rewrite Hes.
  erewrite bind_Ok by reflexivity. unfold log; cbn [store trace].
  erewrite bind_Ok by (by apply edge_loop_Ok).
  rewrite total_of_lengths, Z.add_0_l by done.
  erewrite bind_Ok
    by (unfold lift; rewrite div_by_count by (simpl; lia); reflexivity).
  erewrite bind_Raise; [done|]. unfold host. rewrite Hprior.
  unfold log; cbn. by rewrite <- !app_assoc.
Qed.

Section with_black.
Variable black : Color.t.

Lemma computed_colors_omap (vs : list Vertex) cs :
  Forall2 (λ v c, computed_color black v = Some c) vs cs →
  cs = omap (computed_color black) vs.
Proof. induction 1 as [|v c vs cs Hc _ ->]; [done|]. cbn. by rewrite Hc. Qed.

Lemma answered_computed (vs : list Vertex) :
  Forall (λ v, ∃ es ls prior, answers v es ls prior) vs →
  Forall2 (λ v c, computed_color black v = Some c) vs
    (omap (computed_color black) vs).
Proof.
  induction 1 as [|v vs (es & ls & prior & Hv) _ IH]; [constructor|].
  cbn. rewrite (computed_color_answers black v es ls prior Hv). cbn.
  constructor; [by eapply computed_color_answers | done].
Qed.

Lemma computed_answered (vs : list Vertex) cs :
  Forall2 (λ v c, computed_color black v = Some c) vs cs →
  Forall (λ v, ∃ es ls prior, answers v es ls prior) vs.
Proof.
  induction 1 as [|v c vs cs Hc _ IH]; constructor; [|done].
  apply computed_color_Some_inv in Hc as (es & ls & prior & Hv & _). eauto.
Qed.

Lemma vertex_loop_Raise_at ivs1 i v ivs2 cs1 colors st tr e :
  Forall2 (λ iv c, computed_color black iv.2 = Some c) ivs1 cs1 →
  (vertex_body black (0, v) [] empty).1 = Raise e →
  ∃ qv,
    qv `prefix_of` vertex_queries v
    ∧ for_each (ivs1 ++ (i, v) :: ivs2) (vertex_body black) colors
        {| store := st; trace := tr |}
      = (Raise e,
         {| store := st ++ cs1;
            trace := tr ++ concat (map vertex_queries ivs1.*2) ++ qv |}).
Proof.
  intros Hcs1 Hv.
  destruct (vertex_body black (0, v) [] empty) as [r s0] eqn:Hrun.
  cbn in Hv. subst r.
  apply vertex_body_Raise in Hrun as (qv & Hpre & _ & Hall).
  exists qv. split; [done|]. clear Hpre.
  revert colors st tr. induction Hcs1 as [|[j u] c ivs1 cs1 Hc _ IH];
    intros colors st tr.
  - cbn [app for_each]. erewrite bind_Raise by apply Hall.
    by rewrite app_nil_r.
  - cbn [app for_each].
    erewrite bind_Ok by (by apply vertex_body_of_computed).
    rewrite IH. cbn. by rewrite <- !app_assoc.
Qed.

(** What a run of [doIt] leaves, in every case: the state after the loop
    over the vertices. *)
Lemma doIt_loop_Raise obj st tr e s' :
  createColorSet obj "edgeLength" = Returns () →
  vertex_loop black obj
    {| store := st; trace := tr ++ [ECreateColorSet "edgeLength"] |}
  = (Raise e, s') →
  doIt black obj {| store := st; trace := tr |} = (Raise e, s').
Proof.
  intros Hcreate Hloop. unfold doIt.
  erewrite bind_Ok by (by apply host_Returns). by erewrite bind_Raise.
Qed.

(** X1: [doIt] returns exactly when the host answers everything it is
    asked: [createColorSet] returns, every vertex has its connected edges,
    at least one, their lengths and its colour, and [setColors] (given
    the colours of the vertices), [updateSurface] and [polyColorPerVertex]
    return. *)
Theorem doIt_returns_iff obj s :
  (∃ s', doIt black obj s = (Ok (), s'))
  ↔ createColorSet obj "edgeLength" = Returns ()
    ∧ Forall (λ v, ∃ es ls prior, answers v es ls prior) (vtx obj)
    ∧ setColors obj (omap (computed_color black) (vtx obj)) = Returns ()
    ∧ updateSurface obj = Returns ()
    ∧ polyColorPerVertex obj 1%Z 1%Z = Returns ().
Proof.
  destruct s as [st tr]. split.
  - intros [s' (cs & Hcs & _ & Hcreate & Hset & Hupd & Hpoly)%doIt_Ok_inv].
    rewrite (computed_colors_omap _ _ Hcs) in Hset.
    split_and!; [done | by eapply computed_answered | done..].
  - intros (Hcreate & Hvs & Hset & Hupd & Hpoly). eexists.
    apply doIt_Ok; [done | by apply answered_computed | done..].
Qed.
End with_black.

Lemma doIt_returns_iff_witness :
  ∃ s', doIt Scenario.black Scenario.two_vertices empty = (Ok (), s').
Proof.
  apply (doIt_returns_iff Scenario.black Scenario.two_vertices empty).
  split_and!; [reflexivity | | reflexivity..].
  repeat constructor;
    eexists (imap Scenario.edge Scenario.lengths), Scenario.lengths, _;
    (split; [reflexivity | repeat constructor | discriminate | reflexivity]).
Defined.


Lemma enumerate_split {A} (xs1 : list A) x xs2 :
  ∃ ivs1 i ivs2,
    enumerate (xs1 ++ x :: xs2) = ivs1 ++ (i, x) :: ivs2 ∧ ivs1.*2 = xs1.
Proof.
  pose proof (enumerate_snd (xs1 ++ x :: xs2)) as H.
  apply fmap_app_inv in H as (ivs1 & ivs' & -> & H & ->).
  symmetry in H. apply fmap_cons_inv in H as ([i y] & ivs2 & -> & -> & ->).
  by exists ivs1, i, ivs2.
Qed.

(** X2: [doIt] stops at the first vertex the host does not answer for
    (no connected edge, or a failing query): it raises there, the colours
    of the vertices before it exist, the trace ends inside the queries of
    that vertex, and no vertex after it is queried, nor anything written to
    the mesh. *)
Theorem doIt_stops_at_first_failing_vertex black obj s vs1 v vs2 :
  vtx obj = vs1 ++ v :: vs2 →
  createColorSet obj "edgeLength" = Returns () →
  Forall (λ u, ∃ es ls prior, answers u es ls prior) vs1 →
  (¬ ∃ es ls prior, answers v es ls prior) →
  ∃ e qv,
    qv `prefix_of` vertex_queries v
    ∧ doIt black obj s
      = (Raise e,
         {| store := store s ++ omap (computed_color black) vs1;
            trace := trace s
                     ++ ECreateColorSet "edgeLength"
                        :: concat (map vertex_queries vs1) ++ qv |}).
Proof.
  intros Hvtx Hcreate Hvs1 Hnot. destruct s as [st tr].
  destruct (vertex_body black (0, v) [] empty) as [[cs|e] s0] eqn:Hv.
  { destruct Hnot. by eapply vertex_body_Ok_inv. }
  apply (f_equal fst) in Hv. cbn [fst] in Hv.
  destruct (enumerate_split vs1 v vs2) as (ivs1 & i & ivs2 & Henum & Hivs1).
  apply (answered_computed black) in Hvs1.
  rewrite <- Hivs1 in Hvs1 at 1. apply Forall2_fmap_l in Hvs1.
  destruct (vertex_loop_Raise_at black ivs1 i v ivs2 _ [] st
              (tr ++ [ECreateColorSet "edgeLength"]) e Hvs1 Hv)
    as (qv & Hpre & Hloop).
  exists e, qv. split; [done|]. cbn [store trace].
  rewrite <- Henum, <- Hvtx in Hloop.
  rewrite (doIt_loop_Raise black obj st tr e _ Hcreate Hloop).
  by rewrite Hivs1, <- app_assoc.
Qed.

Lemma doIt_stops_at_first_failing_vertex_witness :
  ∃ e qv,
    qv `prefix_of` vertex_queries Scenario.v_isolated
    ∧ doIt Scenario.black Scenario.with_isolated empty
      = (Raise e,
         {| store := [] ++ omap (computed_color Scenario.black)
                             [Scenario.v_no_blue];
            trace := [] ++ ECreateColorSet "edgeLength"
                     :: concat (map vertex_queries [Scenario.v_no_blue])
                     ++ qv |}).
Proof.
  apply (doIt_stops_at_first_failing_vertex Scenario.black
           Scenario.with_isolated empty [Scenario.v_no_blue]
           Scenario.v_isolated [Scenario.v_half_blue]).
  - reflexivity.
  - reflexivity.
  - repeat constructor.
    eexists (imap Scenario.edge Scenario.lengths), Scenario.lengths, _.
    split; [reflexivity | repeat constructor | discriminate | reflexivity].
  - intros (es & ls & prior & [Hes _ Hne _]).
    apply Hne. by injection Hes as <-.
Defined.

(** The write-back, once the loop has got through every vertex. *)
Lemma doIt_after_loop black obj cs st tr :
  createColorSet obj "edgeLength" = Returns () →
  Forall2 (λ v c, computed_color black v = Some c) (vtx obj) cs →
  doIt black obj {| store := st; trace := tr |}
  = let t := tr ++ ECreateColorSet "edgeLength"
                :: concat (map vertex_queries (vtx obj))
                ++ [EPrint (Z.of_nat (length (vtx obj))); ESetColors cs] in
    match setColors obj cs with
    | Fails msg => (Raise (HostError msg), {| store := st ++ cs; trace := t |})
    | Returns _ =>
        match updateSurface obj with
        | Fails msg =>
            (Raise (HostError msg),
             {| store := st ++ cs; trace := t ++ [EUpdateSurface] |})
        | Returns _ =>
            (of_answer (polyColorPerVertex obj 1%Z 1%Z),
             {| store := st ++ cs;
                trace := t ++ [EUpdateSurface; EPolyColorPerVertex 1 1] |})
        end
    end.
Proof.
  intros Hcreate Hcs. unfold doIt, vertex_loop.
  erewrite bind_Ok by (by apply host_Returns).
  unfold log; cbn [store trace].
  erewrite bind_Ok
    by (apply vertex_loop_Ok with (cs := cs);
        by rewrite <- (enumerate_snd (vtx obj)), Forall2_fmap_l in Hcs).
  rewrite enumerate_snd, enumerate_length, app_nil_l, length_seq.
  erewrite bind_Ok by reflexivity. unfold log; cbn [store trace].
  rewrite (Forall2_length _ _ _ Hcs).
  erewrite bind_Ok by apply deref_all_new.
  unfold bind, host, log; cbn [store trace].
  destruct (setColors obj cs) as [[]|msg]; cbn [of_answer].
  - destruct (updateSurface obj) as [[]|msg]; cbn [of_answer];
      by repeat (rewrite <- ?app_assoc; cbn [app]).
  - by repeat (rewrite <- ?app_assoc; cbn [app]).
Qed.

(** X4: [doIt] raises nothing but [ZeroDivisionError], and that only when
    a vertex of the mesh has no connected edge, or the error of a failing
    host call; in particular it never meets a reference to no object. *)
Theorem doIt_raises_only black obj s e s' :
  doIt black obj s = (Raise e, s') →
  (e = ZeroDivisionError
   ∧ ∃ v, v ∈ vtx obj ∧ connectedEdges v = Returns [])
  ∨ ∃ msg, e = HostError msg.
Proof. apply doIt_Raise_inv. Qed.

Lemma doIt_raises_only_witness :
  ∃ v, v ∈ vtx Scenario.with_isolated ∧ connectedEdges v = Returns [].
Proof.
  destruct (doIt_raises_only Scenario.black Scenario.with_isolated empty
              ZeroDivisionError
              (doIt Scenario.black Scenario.with_isolated empty).2)
    as [[_ Hv]|[msg Hmsg]].
  - vm_compute. reflexivity.
  - exact Hv.
  - discriminate Hmsg.
Defined.

(** X5: on a mesh without vertices [doIt] queries nothing: it creates the
    colour set, prints [0], hands the empty list to [setColors], updates the
    surface and sets the display option, and makes no [Color] object. *)
Theorem doIt_empty_mesh black obj s :
  vtx obj = [] →
  createColorSet obj "edgeLength" = Returns () →
  setColors obj [] = Returns () →
  updateSurface obj = Returns () →
  polyColorPerVertex obj 1%Z 1%Z = Returns () →
  doIt black obj s
  = (Ok (),
     {| store := store s;
        trace := trace s
                 ++ [ECreateColorSet "edgeLength"; EPrint 0; ESetColors [];
                     EUpdateSurface; EPolyColorPerVertex 1 1] |}).
Proof.
  intros Hvtx Hcreate Hset Hupd Hpoly. destruct s as [st tr].
  rewrite (doIt_after_loop black obj [] st tr Hcreate)
    by (rewrite Hvtx; constructor).
  cbv zeta. rewrite Hset, Hupd, Hpoly, Hvtx. cbn.
  by rewrite app_nil_r, <- app_assoc.
Qed.

Lemma doIt_empty_mesh_witness :
  doIt Scenario.black (Scenario.mesh []) empty
  = (Ok (),
     {| store := [];
        trace := [ECreateColorSet "edgeLength"; EPrint 0; ESetColors [];
                  EUpdateSurface; EPolyColorPerVertex 1 1] |}).
Proof.
  apply (doIt_empty_mesh Scenario.black (Scenario.mesh []) empty);
    reflexivity.
Defined.

(** X6: when the loop got through every vertex and [setColors] fails,
    [doIt] raises the host's error; [updateSurface] and
    [polyColorPerVertex] are not called. *)
Theorem setColors_failure_ends_doIt black obj s msg :
  createColorSet obj "edgeLength" = Returns () →
  Forall (λ v, ∃ es ls prior, answers v es ls prior) (vtx obj) →
  setColors obj (omap (computed_color black) (vtx obj)) = Fails msg →
  doIt black obj s
  = (Raise (HostError msg),
     {| store := store s ++ omap (computed_color black) (vtx obj);
        trace := trace s
                 ++ ECreateColorSet "edgeLength"
                    :: concat (map vertex_queries (vtx obj))
                    ++ [EPrint (Z.of_nat (length (vtx obj)));
                        ESetColors (omap (computed_color black) (vtx obj))]
     |}).
Proof.
  intros Hcreate Hvs Hset. destruct s as [st tr].
  rewrite (doIt_after_loop black obj _ st tr Hcreate
             (answered_computed black _ Hvs)).
  cbv zeta. by rewrite Hset.
Qed.

Lemma setColors_failure_ends_doIt_witness :
  doIt Scenario.black (Scenario.mesh_refusing_colors [Scenario.v_no_blue])
    empty
  = (Raise (HostError "setColors failed"),
     {| store := [Color.mk 4 0 4 1];
        trace := [ECreateColorSet "edgeLength";
                  EConnectedEdges 0; EGetLength 0; EGetLength 1;
                  EGetLength 2; EGetColor 0 0;
                  EPrint 1; ESetColors [Color.mk 4 0 4 1]] |}).
Proof.
  rewrite (setColors_failure_ends_doIt Scenario.black
             (Scenario.mesh_refusing_colors [Scenario.v_no_blue]) empty
             "setColors failed").
  - vm_compute. reflexivity.
  - reflexivity.
  - repeat constructor.
    eexists (imap Scenario.edge Scenario.lengths), Scenario.lengths, _.
    split; [reflexivity | repeat constructor | discriminate | reflexivity].
  - reflexivity.
Defined.

(** X7: when [setColors] returned and [updateSurface] fails, [doIt] raises
    the host's error after the colours were handed over: the trace holds
    the [setColors] call with the whole list, and [polyColorPerVertex] is
    not called. *)
Theorem updateSurface_failure_after_write black obj s msg :
  createColorSet obj "edgeLength" = Returns () →
  Forall (λ v, ∃ es ls prior, answers v es ls prior) (vtx obj) →
  setColors obj (omap (computed_color black) (vtx obj)) = Returns () →
  updateSurface obj = Fails msg →
  doIt black obj s
  = (Raise (HostError msg),
     {| store := store s ++ omap (computed_color black) (vtx obj);
        trace := trace s
                 ++ ECreateColorSet "edgeLength"
                    :: concat (map vertex_queries (vtx obj))
                    ++ [EPrint (Z.of_nat (length (vtx obj)));
                        ESetColors (omap (computed_color black) (vtx obj));
                        EUpdateSurface]
     |}).
Proof.
  intros Hcreate Hvs Hset Hupd. destruct s as [st tr].
  rewrite (doIt_after_loop black obj _ st tr Hcreate
             (answered_computed black _ Hvs)).
  cbv zeta. rewrite Hset, Hupd. cbn [store trace].
  by repeat (rewrite <- ?app_assoc; cbn [app]).
Qed.

Lemma updateSurface_failure_after_write_witness :
  doIt Scenario.black (Scenario.mesh_refusing_update [Scenario.v_half_blue])
    empty
  = (Raise (HostError "updateSurface failed"),
     {| store := [Color.mk 4 0 0 1];
        trace := [ECreateColorSet "edgeLength";
                  EConnectedEdges 1; EGetLength 0; EGetLength 1;
                  EGetLength 2; EGetColor 1 0;
                  EPrint 1; ESetColors [Color.mk 4 0 0 1];
                  EUpdateSurface] |}).
Proof.
  rewrite (updateSurface_failure_after_write Scenario.black
             (Scenario.mesh_refusing_update [Scenario.v_half_blue]) empty
             "updateSurface failed").
  - vm_compute. reflexivity.
  - reflexivity.
  - repeat constructor.
    eexists (imap Scenario.edge Scenario.lengths), Scenario.lengths, _.
    split; [reflexivity | repeat constructor | discriminate | reflexivity].
  - reflexivity.
  - reflexivity.
Defined.

(** X8: when [createColorSet] fails, [doIt] raises the host's error at
    once: no vertex is queried, no [Color] object is made and nothing is
    written to the mesh. *)
Theorem createColorSet_failure_stops_doIt black obj s msg :
  createColorSet obj "edgeLength" = Fails msg →
  doIt black obj s
  = (Raise (HostError msg),
     {| store := store s;
        trace := trace s ++ [ECreateColorSet "edgeLength"] |}).
Proof.
  intros Hcreate. unfold doIt.
  erewrite bind_Raise; [done|]. unfold host. by rewrite Hcreate.
Qed.

Lemma createColorSet_failure_stops_doIt_witness :
  doIt Scenario.black (Scenario.mesh_refusing_color_set [Scenario.v_no_blue])
    empty
  = (Raise (HostError "createColorSet failed"),
     {| store := []; trace := [ECreateColorSet "edgeLength"] |}).
Proof.
  apply (createColorSet_failure_stops_doIt Scenario.black
           (Scenario.mesh_refusing_color_set [Scenario.v_no_blue]) empty).
  reflexivity.
Defined.

End doIt_more.

(** ** Further properties of the package's start-up *)

Section init_failures.
Import PymelInit.
Variable host : Host.
Implicit Types (s : state) (x m : string) (v : value).

Lemma assign_no_Raise x v s e s1 : assign x v s = (Raise e, s1) → False.
Proof. done. Qed.

Lemma print_no_Raise msg s e s1 : print msg s = (Raise e, s1) → False.
Proof. done. Qed.

Lemma lookup_Raise_inv x s e s1 :
  lookup x s = (Raise e, s1) → globals s !! x = None.
Proof. unfold lookup. by destruct (globals s !! x). Qed.

Lemma import_as_Raise_inv ev m s e s1 :
  import_as host ev m s = (Raise e, s1) →
  import host m = Raise e ∧ s1 = log ev s.
Proof. unfold import_as. by intros [= -> <-]. Qed.

Lemma import_star_Raise_inv m s e s1 :
  import_star host m s = (Raise e, s1) →
  import host m = Raise e ∧ s1 = log (EImportStar m) s.
Proof.
  unfold import_star.
  intros [?%import_as_Raise_inv|(? & ? & _ & Hb)]%bind_Raise_inv;
    [done | discriminate Hb].
Qed.

Lemma call_value_Raise_inv f args kwargs s e s1 :
  call_value host f args kwargs s = (Raise e, s1) →
  (∃ msg, e = HostError msg) ∧ s1 = log (ECall f args kwargs) s.
Proof.
  unfold call_value. destruct (call host f args kwargs); simpl; intros;
    simplify_eq. eauto.
Qed.

Lemma assert_Raise_inv v s e s1 :
  (if truthy v then ret () else raise AssertionError) s = (Raise e, s1) →
  e = AssertionError ∧ s1 = s.
Proof. unfold ret, raise. destruct (truthy v); intros; by simplify_eq. Qed.

(** [__import__] raises for a name that is no string, for the empty name,
    and what importing the module raises. *)
Lemma builtin_import_Raise_inv v s e s1 :
  builtin_import host v s = (Raise e, s1) →
  ((e = TypeError ∧ ∀ n, v ≠ VStr n)
   ∨ (e = ValueError ∧ v = VStr "")
   ∨ ∃ n, v = VStr n ∧ load host n = Raise e)
  ∧ s1 = log (EBuiltinImport v) s.
Proof.
  unfold builtin_import.
  destruct v as [| | |n| | |]; try (intros [= <- <-]; by split; [left|]).
  destruct (String.eqb_spec n "") as [->|Hn].
  { intros [= <- <-]. split; [right; by left | done]. }
  destruct (load host n) as [[]|e'] eqn:Hload; intros [= <- <-].
  split; [do 2 right; eauto | done].
Qed.

Lemma run_test_Raise_inv s e s1 :
  _test host s = (Raise e, s1) →
  (import host "doctest" = Raise e ∨ ∃ msg, e = HostError msg)
  ∧ omap step_of (trace s1) = omap step_of (trace s).
Proof.
  unfold _test, import_module. intros Hrun.
  apply bind_Raise_inv in Hrun as [[He ->]%import_as_Raise_inv|Hrun].
  { split; [by left|]. cbn. by rewrite omap_app, app_nil_r. }
  destruct Hrun as (? & ? & [_ ->]%import_as_Ok_inv & Hrun).
  apply bind_Raise_inv in Hrun as [[? ->]%call_value_Raise_inv|Hrun].
  { split; [by right|]. cbn. by rewrite !omap_app, !app_nil_r. }
  by destruct Hrun as (? & ? & _ & ?).
Qed.

Lemma run_test_Ok s :
  import host "doctest" = Ok () →
  (∃ r, call host (VAttr (VModule "doctest") "testmod") []
          [("verbose", VBool true)] = Returns r) →
  ∃ s1, _test host s = (Ok VNone, s1).
Proof.
  intros Hd [r Hr]. unfold _test, import_module, import_as, call_value, bind.
  rewrite Hd, Hr. cbn. eauto.
Qed.

Lemma run_test_Ok_host s a s1 :
  _test host s = (Ok a, s1) →
  import host "doctest" = Ok ()
  ∧ ∃ r, call host (VAttr (VModule "doctest") "testmod") []
           [("verbose", VBool true)] = Returns r.
Proof.
  unfold _test, import_module.
  intros (? & ? & [? ->]%import_as_Ok_inv & Hrun)%bind_Ok_inv.
  apply bind_Ok_inv in Hrun as (? & ? & [? ->]%call_value_Ok_inv & Hrun).
  eauto.
Qed.
End init_failures.

(** One step of a run that raises: either the statement raised, which
    leaves a goal with what was learnt in [Hm], or it returned and the run
    goes on. *)
Tactic Notation "rstep" hyp(H) "as" simple_intropattern(p) :=
  let Hm := fresh "Hm" in
  apply bind_Raise_inv in H as [Hm|(? & ? & Hm & H)];
  [ first
      [ by apply assign_no_Raise in Hm
      | by apply print_no_Raise in Hm
      | apply import_as_Raise_inv in Hm as [Hm ->]
      | apply import_star_Raise_inv in Hm as [Hm ->]
      | apply call_value_Raise_inv in Hm as [[? ->] ->]
      | apply assert_Raise_inv in Hm as [-> ->]
      | apply lookup_Raise_inv in Hm ]
  | first
      [ apply assign_Ok_inv in Hm as ->
      | apply print_Ok_inv in Hm as ->
      | apply import_as_Ok_inv in Hm as [p ->]
      | apply import_star_Ok_inv in Hm as [p ->]
      | apply lookup_Ok_inv in Hm as [p ->]
      | apply call_value_Ok_inv in Hm as [p ->]
      | apply assert_Ok_inv in Hm as [p ->] ] ];
  cbn [PymelInit.globals PymelInit.trace PymelInit.log PymelInit.fresh] in *.

Section init_more.
Import PymelInit.
Variable host : Host.

(** Where a run that raises stopped: the exception, the statement it comes
    from, and the start-up steps made up to it. *)
Lemma init_Raise_inv name e s :
  init host (fresh name) = (Raise e, s) →
  (import host "mayahook" = Raise e ∧ omap step_of (trace s) = [])
  ∨ ((e = AssertionError ∨ ∃ msg, e = HostError msg)
     ∧ omap step_of (trace s) = [Bootstrap])
  ∨ (import host "core.pmtypes.factories" = Raise e
     ∧ omap step_of (trace s) = [Bootstrap; LoadFactory])
  ∨ (import host "api" = Raise e
     ∧ omap step_of (trace s) = [Bootstrap; LoadFactory; LoadIdentityLayer])
  ∨ ((import host "core" = Raise e ∨ import host "util.test" = Raise e
      ∨ (e = TypeError
         ∧ ∃ v, star host "core" !! "__name__" = Some v
                ∧ ∀ n, v ≠ VStr n)
      ∨ (e = ValueError
         ∧ default (VStr name) (star host "core" !! "__name__") = VStr "")
      ∨ (∃ nm,
           default (VStr name) (star host "core" !! "__name__") = VStr nm
           ∧ load host nm = Raise e))
     ∧ omap step_of (trace s)
       = [Bootstrap; LoadFactory; LoadIdentityLayer; ReexportCore])
  ∨ ((import host "maya.cmds" = Raise e ∨ import host "doctest" = Raise e
      ∨ ∃ msg, e = HostError msg)
     ∧ ∃ m, omap step_of (trace s)
            = [Bootstrap; LoadFactory; LoadIdentityLayer; ReexportCore;
               RegisterCallbacks m]).
Proof.
  intros Hrun. unfold init, import_module in Hrun.
  rstep Hrun as ?. rstep Hrun as _; [by left|].
  rstep Hrun as ?. rstep Hrun as ?.
  rstep Hrun as HmayaInit; [by rewrite lookup_insert_eq in Hm|].
  rewrite lookup_insert_eq in HmayaInit. injection HmayaInit as <-.
  rstep Hrun as _; [right; left; eauto|].
  rstep Hrun as _; [right; left; eauto|].
  rstep Hrun as _; [do 2 right; left; eauto|]. rstep Hrun as ?.
  rstep Hrun as _; [do 3 right; left; eauto|]. rstep Hrun as ?.
  rstep Hrun as ?.
  rstep Hrun as _; [do 4 right; left; eauto|]. rstep Hrun as ?.
  rstep Hrun as _; [do 4 right; left; eauto|]. rstep Hrun as ?.
  rstep Hrun as Hname.
  { rewrite lookup_insert_ne in Hm by done.
    apply lookup_union_None in Hm as [_ Hm]. by vm_compute in Hm. }
  rewrite lookup_insert_ne in Hname by done.
  rewrite (union_lookup_default _ _ _ (VStr name)) in Hname by done.
  injection Hname as Hname.
  apply bind_Raise_inv in Hrun as [Himp|(m & ? & Himp & Hrun)].
  { apply builtin_import_Raise_inv in Himp as [He ->]. cbn.
    do 4 right; left. split; [|done]. do 2 right.
    destruct He as [[-> Hnot]|[[-> ->]|(nm & -> & Hload)]].
    - left. split; [done|].
      destruct (star host "core" !! "__name__") as [v|] eqn:Hcore;
        cbn in Hname; [exists v; by subst | by destruct (Hnot name)].
    - right; by left.
    - do 2 right. eauto. }
  apply builtin_import_Ok_inv in Himp as (nm & -> & _ & _ & -> & ->).
  cbn [globals trace log] in Hrun.
  rstep Hrun as ?.
  rstep Hrun as Hfactories.
  { rewrite !lookup_insert_ne in Hm by done.
    apply lookup_union_None in Hm as [_ Hm]. by vm_compute in Hm. }
  rstep Hrun as Hmodule; [by rewrite lookup_insert_eq in Hm|].
  rewrite lookup_insert_eq in Hmodule. injection Hmodule as <-.
  rstep Hrun as _; [do 5 right; eauto 10|].
  rstep Hrun as _; [do 5 right; eauto 10|].
  rstep Hrun as ?. rstep Hrun as ?.
  apply bind_Raise_inv in Hrun
    as [Hl|(v & s1 & [Hname2 ->]%lookup_Ok_inv & Hrun)].
  { apply lookup_Raise_inv in Hl. cbn [globals] in Hl.
    rewrite !lookup_insert_ne in Hl by done.
    rewrite (union_lookup_default _ _ _ (VStr name)) in Hl by done.
    discriminate Hl. }
  destruct (is_main v); [|discriminate Hrun].
  apply bind_Raise_inv in Hrun as [Ht|(? & ? & _ & ?)]; [|done].
  apply run_test_Raise_inv in Ht as [He ->]. cbn.
  do 5 right. split; [destruct He as [?|[msg ->]]; eauto | eauto].
Qed.

(** X10: when the module's code has run, every name [core] exports is bound
    in the package's namespace to the object [core] exports, unless it is one
    of the four names the package binds after the star import. *)
Theorem core_names_are_reexported name s x v :
  init host (fresh name) = (Ok (), s) →
  star host "core" !! x = Some v →
  x ∉ package_names →
  globals s !! x = Some v.
Proof.
  intros Hrun Hx Hnot. rewrite (init_globals_lookup host name s x Hrun Hnot).
  by apply lookup_union_Some_l.
Qed.

(** X11: what the package binds itself: [pymel_test] and [_test] always,
    and [__version__], [factories] and [api] unless [core] exports a name
    of the same spelling, which then takes its place. *)
Theorem package_bindings name s :
  init host (fresh name) = (Ok (), s) →
  globals s !! "pymel_test" = Some (VAttr (VModule "util.test") "pymel_test")
  ∧ globals s !! "_test" = Some (VFunction "_test")
  ∧ globals s !! "__version__"
    = Some (default (VStr "0.8.0") (star host "core" !! "__version__"))
  ∧ globals s !! "factories"
    = Some (default (VModule "core.pmtypes.factories")
              (star host "core" !! "factories"))
  ∧ globals s !! "api"
    = Some (default (VModule "api") (star host "core" !! "api")).
Proof.
  intros Hrun.
  assert (∀ x v, x ∉ package_names → before_star name !! x = Some v →
    globals s !! x = Some (default v (star host "core" !! x))) as Hown.
  { intros x v Hx Hv. rewrite (init_globals_lookup host name s x Hrun Hx).
    rewrite lookup_union. destruct (star host "core" !! x); by rewrite Hv. }
  split_and!.
  - apply init_Ok_inv in Hrun as (f & nm & _ & _ & -> & _).
    by rewrite !lookup_insert_ne, lookup_insert_eq by done.
  - apply init_Ok_inv in Hrun as (f & nm & _ & _ & -> & _).
    by rewrite lookup_insert_eq.
  - apply Hown; [|reflexivity].
    unfold package_names. rewrite !not_elem_of_cons. split_and!; try done.
    apply not_elem_of_nil.
  - apply Hown; [|reflexivity].
    unfold package_names. rewrite !not_elem_of_cons. split_and!; try done.
    apply not_elem_of_nil.
  - apply Hown; [|reflexivity].
    unfold package_names. rewrite !not_elem_of_cons. split_and!; try done.
    apply not_elem_of_nil.
Qed.

(** X12: when the start-up raises, the exception is the one a failing
    import statement or [__import__] raised, whatever it is, or the error
    of a failing call, or [AssertionError] after a false [mayaInit()], or
    [TypeError] or [ValueError] for a [__name__] that is no string or is
    empty; the steps made tell which statements can have raised it.  The
    start-up itself reads no name before it is bound. *)
Theorem init_failure_points name e s :
  init host (fresh name) = (Raise e, s) →
  (import host "mayahook" = Raise e ∧ omap step_of (trace s) = [])
  ∨ ((e = AssertionError ∨ ∃ msg, e = HostError msg)
     ∧ omap step_of (trace s) = [Bootstrap])
  ∨ (import host "core.pmtypes.factories" = Raise e
     ∧ omap step_of (trace s) = [Bootstrap; LoadFactory])
  ∨ (import host "api" = Raise e
     ∧ omap step_of (trace s) = [Bootstrap; LoadFactory; LoadIdentityLayer])
  ∨ ((import host "core" = Raise e ∨ import host "util.test" = Raise e
      ∨ (e = TypeError
         ∧ ∃ v, star host "core" !! "__name__" = Some v
                ∧ ∀ n, v ≠ VStr n)
      ∨ (e = ValueError
         ∧ default (VStr name) (star host "core" !! "__name__") = VStr "")
      ∨ (∃ nm,
           default (VStr name) (star host "core" !! "__name__") = VStr nm
           ∧ load host nm = Raise e))
     ∧ omap step_of (trace s)
       = [Bootstrap; LoadFactory; LoadIdentityLayer; ReexportCore])
  ∨ ((import host "maya.cmds" = Raise e ∨ import host "doctest" = Raise e
      ∨ ∃ msg, e = HostError msg)
     ∧ ∃ m, omap step_of (trace s)
            = [Bootstrap; LoadFactory; LoadIdentityLayer; ReexportCore;
               RegisterCallbacks m]).
Proof. apply init_Raise_inv. Qed.

(** X13: in every run, also one that raises, the start-up steps made are a
    beginning of the sequence bootstrap, factory, [api], re-export of
    [core], registration of the callbacks: none is skipped or reordered. *)
Theorem init_steps_never_skip name r s :
  init host (fresh name) = (r, s) →
  ∃ m,
    omap step_of (trace s)
    `prefix_of` [Bootstrap; LoadFactory; LoadIdentityLayer; ReexportCore;
                 RegisterCallbacks m].
Proof.
  destruct r as [[]|e]; intros Hrun.
  - apply init_Ok_inv in Hrun as (f & nm & _ & _ & _ & ->).
    exists (VModule (top_level nm)). rewrite omap_app.
    destruct (String.eqb nm "__main__"); by exists [].
  - apply init_Raise_inv in Hrun
      as [[_ ->]|[[_ ->]|[[_ ->]|[[_ ->]|[[_ ->]|[_ [m ->]]]]]]];
      try (exists VNone; by eexists).
    exists m. by exists [].
Qed.

(** X14: the start-up completes exactly when every import succeeds,
    [mayaInit()] returns a true value, [__name__] is still a string after
    the re-export of [core], it is not empty and [__import__] can import
    the module of that name, [installCallbacks] returns, and, in a module
    run as [__main__], the doctests can be loaded and run. *)
Theorem init_returns_iff name :
  (∃ s, init host (fresh name) = (Ok (), s)) ↔
  Forall (λ m, import host m = Ok ())
    ["mayahook"; "core.pmtypes.factories"; "api"; "core"; "util.test";
     "maya.cmds"]
  ∧ (∃ ok, call host (VAttr (VModule "mayahook") "mayaInit") [] []
           = Returns ok ∧ truthy ok = true)
  ∧ ∃ nm,
      default (VStr name) (star host "core" !! "__name__") = VStr nm
      ∧ nm ≠ ""
      ∧ load host nm = Ok ()
      ∧ (∃ r, call host
                (VAttr (default (VModule "core.pmtypes.factories")
                          (star host "core" !! "factories"))
                   "installCallbacks")
                [VModule (top_level nm)] [] = Returns r)
      ∧ (nm = "__main__" →
         import host "doctest" = Ok ()
         ∧ ∃ r, call host (VAttr (VModule "doctest") "testmod") []
                  [("verbose", VBool true)] = Returns r).
Proof.
  split.
  - intros [s Hrun]. unfold init, import_module in Hrun.
    step Hrun as ?. step Hrun as Hi1. step Hrun as ?. step Hrun as ?.
    step Hrun as HmayaInit.
    rewrite lookup_insert_eq in HmayaInit. injection HmayaInit as <-.
    step Hrun as Hcall. step Hrun as Hok.
    step Hrun as Hi2. step Hrun as ?. step Hrun as Hi3. step Hrun as ?.
    step Hrun as ?. step Hrun as Hi4. step Hrun as ?. step Hrun as Hi5.
    step Hrun as ?.
    step Hrun as Hname.
    apply bind_Ok_inv in Hrun
      as (m & ? & (nm & -> & Hnm & Hload & -> & ->)%builtin_import_Ok_inv
          & Hrun).
    cbn [globals trace log] in Hrun.
    step Hrun as ?. step Hrun as Hfactories. step Hrun as Hmodule.
    rewrite lookup_insert_ne in Hname by done.
    rewrite !lookup_insert_ne in Hfactories by done.
    rewrite lookup_insert_eq in Hmodule. injection Hmodule as <-.
    step Hrun as Hinstall. step Hrun as Hi6. step Hrun as ?. step Hrun as ?.
    apply bind_Ok_inv in Hrun as (v & s1 & [Hname2 ->]%lookup_Ok_inv & Hrun).
    cbn [globals] in Hname2.
    rewrite !lookup_insert_ne in Hname2 by done.
    assert (v = VStr nm) as -> by congruence.
    rewrite (union_lookup_default _ _ _ (VStr name)) in Hname by done.
    rewrite (union_lookup_default _ _ _ (VModule "core.pmtypes.factories"))
      in Hfactories by done.
    injection Hname as Hname. injection Hfactories as <-.
    split_and!; [by repeat constructor | by eauto |].
    exists nm. split_and!; [done | done | done | by eauto |].
    intros ->. cbn in Hrun.
    by apply bind_Ok_inv in Hrun as (? & ? & ?%run_test_Ok_host & _).
  - intros (Himp & (ok & Hcall & Hok) & nm & Hname & Hnm & Hload
            & [r Hinstall] & Hmain).
    apply Forall_cons in Himp as [Hi1 Himp].
    apply Forall_cons in Himp as [Hi2 Himp].
    apply Forall_cons in Himp as [Hi3 Himp].
    apply Forall_cons in Himp as [Hi4 Himp].
    apply Forall_cons in Himp as [Hi5 Himp].
    apply Forall_cons in Himp as [Hi6 _].
    apply String.eqb_neq in Hnm.
    unfold init, import_module, import_star, import_as, bind_all, call_value,
      builtin_import, lookup, assign, print, bind, log, fresh.
    cbn [globals trace].
    rewrite Hi1, lookup_insert_eq, Hcall. cbn [of_answer]. rewrite Hok.
    cbn [ret]. rewrite Hi2, Hi3, Hi4, Hi5. cbn [globals trace].
    rewrite lookup_insert_ne by done.
    rewrite (union_lookup_default _ _ _ (VStr name)) by done.
    rewrite Hname, Hnm, Hload. cbn [ret globals trace].
    rewrite !lookup_insert_ne by done.
    rewrite (union_lookup_default _ _ _ (VModule "core.pmtypes.factories"))
      by done.
    cbn [globals trace]. rewrite lookup_insert_eq, Hinstall, Hi6.
    cbn [of_answer globals trace].
    rewrite !lookup_insert_ne by done.
    rewrite (union_lookup_default _ _ _ (VStr name)) by done.
    rewrite Hname. cbn [is_main].
    destruct (String.eqb_spec nm "__main__") as [->|_]; [|by eauto].
    destruct (Hmain eq_refl) as [Hd Hr].
    edestruct run_test_Ok as [s1 ->]; [done..|]. eauto.
Qed.


(** X16: the module handed to [installCallbacks] and bound to [_module] is
    the top-level package of the module's dotted name: its name holds no
    dot, and is the module's name or what stands before its first dot. *)
Theorem callbacks_on_top_level_package name s :
  init host (fresh name) = (Ok (), s) →
  star host "core" !! "__name__" = None →
  ∃ top f,
    globals s !! "_module" = Some (VModule top)
    ∧ ECall (VAttr f "installCallbacks") [VModule top] [] ∈ trace s
    ∧ (name = top ∨ ∃ rest, name = top +:+ "." +:+ rest)
    ∧ "."%char ∉ String.list_ascii_of_string top.
Proof.
  intros (f & nm & _ & Hname & -> & ->)%init_Ok_inv Hcore.
  rewrite (union_lookup_default _ _ _ (VStr name)), Hcore in Hname by done.
  injection Hname as <-. exists (top_level name), f.
  split_and!.
  - by rewrite !lookup_insert_ne, lookup_insert_eq by done.
  - apply elem_of_app. left. unfold init_trace.
    rewrite !elem_of_cons. do 10 right. by left.
  - apply top_level_prefix.
  - apply top_level_no_dot.
Qed.
End init_more.

Section init_more_witnesses.
Import PymelInit.

Lemma not_package_name x :
  (if decide (x ∈ package_names) then false else true) = true →
  x ∉ package_names.
Proof. by destruct (decide (x ∈ package_names)). Qed.

Lemma core_names_are_reexported_witness :
  globals (init (Scenario.host (VBool true)) (fresh "pymel")).2 !! "ls"
  = Some (VAttr (VModule "core") "ls").
Proof.
  apply (core_names_are_reexported (Scenario.host (VBool true)) "pymel").
  - vm_compute. reflexivity.
  - reflexivity.
  - apply not_package_name. vm_compute. reflexivity.
Defined.

Lemma package_bindings_witness :
  globals (init (Scenario.host (VBool true)) (fresh "pymel")).2
    !! "__version__" = Some (VStr "0.8.0")
  ∧ globals (init (Scenario.host (VBool true)) (fresh "pymel")).2
      !! "factories" = Some (VModule "core.pmtypes.factories").
Proof.
  destruct (package_bindings (Scenario.host (VBool true)) "pymel"
              (init (Scenario.host (VBool true)) (fresh "pymel")).2)
    as (_ & _ & Hversion & Hfactories & _).
  - vm_compute. reflexivity.
  - split; [exact Hversion | exact Hfactories].
Defined.

Lemma init_failure_points_witness :
  omap step_of
    (trace (init (Scenario.host_renaming "no_such_pkg") (fresh "pymel")).2)
  = [Bootstrap; LoadFactory; LoadIdentityLayer; ReexportCore].
Proof.
  destruct (init_failure_points (Scenario.host_renaming "no_such_pkg")
              "pymel" (ImportError "no_such_pkg")
              (init (Scenario.host_renaming "no_such_pkg")
                 (fresh "pymel")).2)
    as [[He _]|[[He _]|[[He _]|[[He _]|[[_ Hs]|[He _]]]]]].
  - vm_compute. reflexivity.
  - discriminate He.
  - destruct He as [He|[msg He]]; discriminate He.
  - discriminate He.
  - discriminate He.
  - exact Hs.
  - destruct He as [He|[He|[msg He]]]; discriminate He.
Defined.

Lemma init_steps_never_skip_witness :
  ∃ m,
    omap step_of
      (trace (init (Scenario.host_without "core") (fresh "pymel")).2)
    `prefix_of` [Bootstrap; LoadFactory; LoadIdentityLayer; ReexportCore;
                 RegisterCallbacks m].
Proof.
  apply (init_steps_never_skip (Scenario.host_without "core") "pymel"
           (Raise (ImportError "core"))).
  vm_compute. reflexivity.
Defined.

Lemma init_returns_iff_witness :
  ∃ s, init (Scenario.host (VBool true)) (fresh "__main__") = (Ok (), s).
Proof.
  apply (init_returns_iff (Scenario.host (VBool true)) "__main__").
  split_and!.
  - repeat constructor.
  - exists (VBool true). split; reflexivity.
  - exists "__main__".
    split_and!; [reflexivity | discriminate | reflexivity | by eexists |].
    intros _. split; [reflexivity | by eexists].
Defined.


Lemma callbacks_on_top_level_package_witness :
  ∃ top f,
    globals (init (Scenario.host (VBool true)) (fresh "tools.pymel")).2
      !! "_module" = Some (VModule top)
    ∧ ECall (VAttr f "installCallbacks") [VModule top] []
      ∈ trace (init (Scenario.host (VBool true)) (fresh "tools.pymel")).2
    ∧ ("tools.pymel" = top ∨ ∃ rest, "tools.pymel" = top +:+ "." +:+ rest)
    ∧ "."%char ∉ String.list_ascii_of_string top.
Proof.
  apply (callbacks_on_top_level_package (Scenario.host (VBool true))
           "tools.pymel").
  - vm_compute. reflexivity.
  - reflexivity.
Defined.
End init_more_witnesses.
